(** * SendMoney agent: the chat routes, the model service, the state panel
      and the chat page, embedded and checked against their specification.

    The development follows the TypeScript sources:
    - [types.ts]            : [TransferState], [PromoData], [Message],
                              [AgentResponse];
    - [geminiService.ts]    : [processUserMessage];
    - [api/chat/route.ts]   : the model-backed route [ChatRoute.POST] and the
                              proxy route [ProxyRoute.POST];
    - [StatePanel.tsx]      : [completedStepsCount], [percentage], and the
                              style, text and note of each row;
    - [ChatBubble.tsx]      : the test that draws the promo card;
    - [page.tsx]            : the [Home] component, as a transition system over
                              its React state.

    Strings are sequences of 8-bit characters.  Values that arrive as parsed
    JSON are dynamically typed ([JSValue]); values the sources hold at a
    declared interface are records. *)

From Stdlib Require Import ZArith QArith List String Ascii Bool Lia DecimalString.
Import ListNotations.
Local Open Scope string_scope.
Local Open Scope Z_scope.
Set Warnings "-register-all".

(* ================================================================== *)
(** ** Runtime values *)
(* ================================================================== *)

(** A JavaScript number: an IEEE double is NaN, an infinity, or
    [mantissa * 2 ^ exponent]. *)
Inductive number : Type :=
| NaN
| Infinity (negative : bool)
| Finite (mantissa exponent : Z).

(** The values [request.json()] and [response.json()] produce, extended
    with [undefined] (the result of reading an absent property) and with the
    [Date] objects the routes build.  An object lists its own properties in
    insertion order, with distinct keys. *)
Inductive JSValue : Type :=
| JUndefined
| JNull
| JBool (b : bool)
| JNumber (n : number)
| JString (s : string)
| JArray (elements : list JSValue)
| JObject (properties : list (string * JSValue))
| JDate (source : JSValue).

(** What a [throw] carries. *)
Inductive Thrown : Type :=
| TypeError (message : string)
| SyntaxError (message : string)
| RangeError (message : string)
| Error (message : string).

(** A computation that returns or throws. *)
Inductive Exc (A : Type) : Type :=
| Return (a : A)
| Throw (e : Thrown).
Arguments Return {A} a.
Arguments Throw {A} e.

Definition is_empty (s : string) : bool :=
  match s with EmptyString => true | String _ _ => false end.

Definition number_is_zero_or_nan (n : number) : bool :=
  match n with
  | NaN => true
  | Infinity _ => false
  | Finite m _ => m =? 0
  end.

(** ToBoolean: [undefined], [null], [false], [0], [NaN] and the empty string
    are falsy; everything else is truthy. *)
Definition ToBoolean (v : JSValue) : bool :=
  match v with
  | JUndefined | JNull => false
  | JBool b => b
  | JNumber n => negb (number_is_zero_or_nan n)
  | JString s => negb (is_empty s)
  | JArray _ | JObject _ | JDate _ => true
  end.

(** [typeof v === 'string'] *)
Definition typeof_is_string (v : JSValue) : bool :=
  match v with JString _ => true | _ => false end.

Fixpoint lookup (k : string) (ps : list (string * JSValue)) : option JSValue :=
  match ps with
  | [] => None
  | (k', v) :: ps' => if String.eqb k k' then Some v else lookup k ps'
  end.

(** Property read [v.k] (and each name of a destructuring pattern
    [const { k } = v]), for the property names this program uses, none of
    which is [length], an index or a prototype method: it throws on [null]
    and [undefined], finds own properties of objects, and is [undefined]
    everywhere else. *)
Definition Get (v : JSValue) (k : string) : Exc JSValue :=
  match v with
  | JUndefined | JNull => Throw (TypeError "Cannot read properties of null or undefined")
  | JObject ps => Return (match lookup k ps with Some x => x | None => JUndefined end)
  | _ => Return JUndefined
  end.

(** Optional chaining [v?.k]. *)
Definition GetOpt (v : JSValue) (k : string) : JSValue :=
  match v with
  | JObject ps => match lookup k ps with Some x => x | None => JUndefined end
  | _ => JUndefined
  end.

(** [a || b] *)
Definition or_else (a b : JSValue) : JSValue :=
  if ToBoolean a then a else b.

(** Property write in an object literal: an existing key keeps its place. *)
Fixpoint set_property (k : string) (v : JSValue) (ps : list (string * JSValue))
  : list (string * JSValue) :=
  match ps with
  | [] => [(k, v)]
  | (k', v') :: ps' =>
      if String.eqb k k' then (k', v) :: ps' else (k', v') :: set_property k v ps'
  end.

(* ================================================================== *)
(** ** Effects: a log of outgoing calls, and exceptions *)
(* ================================================================== *)

(** A handler run: the calls it issued, in order, and how it ended. *)
Definition Eff (L A : Type) : Type := (list L * Exc A)%type.

Definition ret {L A} (a : A) : Eff L A := ([], Return a).
Definition throw {L A} (e : Thrown) : Eff L A := ([], Throw e).
Definition lift {L A} (x : Exc A) : Eff L A := ([], x).
Definition emit {L} (l : L) : Eff L unit := ([l], Return tt).

Definition bind {L A B} (m : Eff L A) (f : A -> Eff L B) : Eff L B :=
  match m with
  | (l1, Return a) => let (l2, r) := f a in ((l1 ++ l2)%list, r)
  | (l1, Throw e) => (l1, Throw e)
  end.

(** [try { m } catch (error) { h error }] *)
Definition try_catch {L A} (m : Eff L A) (h : Thrown -> Eff L A) : Eff L A :=
  match m with
  | (l1, Return a) => (l1, Return a)
  | (l1, Throw e) => let (l2, r) := h e in ((l1 ++ l2)%list, r)
  end.

Declare Scope eff_scope.
Delimit Scope eff_scope with eff.
Notation "x <- m ;; k" := (bind m (fun x => k))
  (at level 61, m at next level, right associativity) : eff_scope.
Notation "m ;;; k" := (bind m (fun _ => k))
  (at level 61, right associativity) : eff_scope.

(** Sequencing inside a pure throwing computation. *)
Definition Exc_bind {A B} (m : Exc A) (f : A -> Exc B) : Exc B :=
  match m with Return a => f a | Throw e => Throw e end.

Fixpoint Exc_map {A B} (f : A -> Exc B) (l : list A) : Exc (list B) :=
  match l with
  | [] => Return []
  | a :: l' =>
      Exc_bind (f a) (fun b => Exc_bind (Exc_map f l') (fun bs => Return (b :: bs)))
  end.

(* ================================================================== *)
(** ** types.ts *)
(* ================================================================== *)

Record TransferState : Type := {
  destinationCountry : option string;
  amount : option string;
  beneficiaryName : option string;
  deliveryMethod : option string;
  isComplete : bool
}.

Record PromoData : Type := {
  imageUrl : string;
  title : string;
  description : string;
  buttonText : string;
  link : string;
  footer : string
}.

Inductive Role : Type := user | agent.

(** A [Date], as milliseconds since the epoch. *)
Definition Date : Type := Z.

Module Message.
Record t : Type := {
  id : string;
  role : Role;
  content : string;
  timestamp : Date;
  promo : option PromoData
}.
End Message.
Abbreviation Message := Message.t.

Module AgentResponse.
Record t : Type := {
  agentResponse : string;
  updatedState : TransferState;
  promo : option PromoData
}.
End AgentResponse.
Abbreviation AgentResponse := AgentResponse.t.

(** Mock validation data. *)
Definition VALID_COUNTRIES : list string :=
  ["USA"; "Mexico"; "India"; "Philippines"; "Canada"; "UK"; "Brazil"; "France";
   "Germany"; "Japan"].

Definition VALID_METHODS : list string :=
  ["Bank Deposit"; "Cash Pickup"; "Mobile Wallet"].

Definition COUNTRY_CURRENCY_MAP : list (string * string) :=
  [("USA", "USD"); ("Mexico", "MXN"); ("India", "INR"); ("Philippines", "PHP");
   ("Canada", "CAD"); ("UK", "GBP"); ("Brazil", "BRL"); ("France", "EUR");
   ("Germany", "EUR"); ("Japan", "JPY")].

(* ================================================================== *)
(** ** String helpers of the runtime *)
(* ================================================================== *)

(** [Array.prototype.join] on strings. *)
Fixpoint join (sep : string) (l : list string) : string :=
  match l with
  | [] => EmptyString
  | [x] => x
  | x :: l' => x ++ sep ++ join sep l'
  end.

(** [Array.prototype.slice(start)], one argument: a negative [start] counts
    from the end, and both directions are clamped to the array. *)
Definition slice {A} (start : Z) (l : list A) : list A :=
  let len := Z.of_nat (List.length l) in
  let k := if start <? 0 then Z.max (len + start) 0 else Z.min start len in
  skipn (Z.to_nat k) l.

(** [Array.prototype.slice(0, stop)] for a non-negative [stop]. *)
Definition slice_to {A} (stop : nat) (l : list A) : list A := firstn stop l.

(** Trimming and splitting on white space, for any alphabet. *)
Section WhiteSpace.
Context {char : Type} (is_ws : char -> bool).

Fixpoint trimStart (l : list char) : list char :=
  match l with
  | [] => []
  | c :: l' => if is_ws c then trimStart l' else l
  end.

Fixpoint trimEnd (l : list char) : list char :=
  match l with
  | [] => []
  | c :: l' =>
      match trimEnd l' with
      | [] => if is_ws c then [] else [c]
      | r => c :: r
      end
  end.

(** [String.prototype.trim] *)
Definition trim (l : list char) : list char := trimEnd (trimStart l).

(** [s.split(/\s+/)]: every maximal run of white space is one separator;
    a separator at either end leaves an empty piece there, and the empty
    string splits into one empty piece.  [in_sep] tells that the previous
    character belonged to a separator. *)
Fixpoint split_ws (in_sep : bool) (l : list char) : list (list char) :=
  match l with
  | [] => [[]]
  | c :: l' =>
      if is_ws c then
        if in_sep then split_ws true l' else [] :: split_ws true l'
      else
        match split_ws false l' with
        | p :: ps => (c :: p) :: ps
        | [] => [[c]]
        end
  end.

(** The white-space-separated tokens of a string, in the words of the
    specification: its maximal runs of characters that are not white
    space. *)
Fixpoint tokens (l : list char) : list (list char) :=
  match l with
  | [] => []
  | c :: l' =>
      if is_ws c then tokens l'
      else
        match l' with
        | [] => [[c]]
        | c' :: _ =>
            if is_ws c' then [c] :: tokens l'
            else
              match tokens l' with
              | t :: ts => (c :: t) :: ts
              | [] => [[c]]
              end
        end
  end.
End WhiteSpace.

(** White space of [trim] and of the class [\s], among the 8-bit characters:
    tab, line feed, vertical tab, form feed, carriage return, space and the
    no-break space. *)
Definition is_space (c : ascii) : bool :=
  let n := nat_of_ascii c in
  ((9 <=? n) && (n <=? 13) || (n =? 32) || (n =? 160))%nat.

(* ================================================================== *)
(** ** StatePanel.tsx *)
(* ================================================================== *)

Module StatePanel.

Record Step : Type := {
  key : string;
  label : string;
  value : option string;
  placeholder : string;
  hint : option string
}.

Fixpoint currency_of (country : string) (m : list (string * string)) : option string :=
  match m with
  | [] => None
  | (c, cur) :: m' => if String.eqb country c then Some cur else currency_of country m'
  end.

(** [state.destinationCountry ? COUNTRY_CURRENCY_MAP[...] || 'USD' : null],
    for country names that are not names of properties every object
    inherits ([constructor], [toString] and the like), for which the lookup
    in the code finds the inherited value instead of a currency. *)
Definition expectedCurrency (state : TransferState) : option string :=
  match destinationCountry state with
  | Some c =>
      if is_empty c then None
      else match currency_of c COUNTRY_CURRENCY_MAP with
           | Some cur => Some cur
           | None => Some "USD"
           end
  | None => None
  end.

Definition steps (state : TransferState) : list Step :=
  [ {| key := "destinationCountry"; label := "Destination";
       value := destinationCountry state;
       placeholder := "Where are we sending?";
       hint := Some ("Supported: " ++ join ", " (slice_to 3 VALID_COUNTRIES) ++ "...") |};
    {| key := "amount"; label := "Amount";
       value := amount state;
       placeholder := "How much?";
       hint := match expectedCurrency state with
               | Some cur => Some ("Currency: " ++ cur)
               | None => None
               end |};
    {| key := "beneficiaryName"; label := "Beneficiary";
       value := beneficiaryName state;
       placeholder := "Who is receiving?";
       hint := None |};
    {| key := "deliveryMethod"; label := "Method";
       value := deliveryMethod state;
       placeholder := "Bank, Cash, Wallet?";
       hint := Some ("Options: " ++ join ", " VALID_METHODS) |} ].

(** [v.trim().split(/\s+/).length < 2] *)
Definition isWarning (v : string) : bool :=
  (List.length (split_ws is_space false (trim is_space (list_ascii_of_string v))) <? 2)%nat.

(** The predicate of [steps.filter(...)]. *)
Definition fully_done (step : Step) : bool :=
  match value step with
  | None => false
  | Some v =>
      if String.eqb (key step) "beneficiaryName" then negb (isWarning v)
      else true
  end.

Definition completedStepsCount (state : TransferState) : nat :=
  List.length (filter fully_done (steps state)).

(** [(completedStepsCount / steps.length) * 100].  The quotients that
    occur, 0, 1/4, 1/2, 3/4 and 1, and their products with 100 are exact
    doubles, so rational arithmetic gives the same numbers. *)
Definition percentage (state : TransferState) : Q :=
  (inject_Z (Z.of_nat (completedStepsCount state))
   / inject_Z (Z.of_nat (List.length (steps state)))) * 100.

End StatePanel.

(** The specification's reading of the panel: a slot is satisfied when it
    is filled, the name only with two tokens or more; the progress fraction
    is the number of satisfied slots over four. *)
Module PanelSpec.

Definition filled (v : option string) : bool :=
  match v with Some _ => true | None => false end.

Definition two_tokens (s : string) : bool :=
  (2 <=? List.length (tokens is_space (list_ascii_of_string s)))%nat.

Definition name_satisfied (v : option string) : bool :=
  match v with Some s => two_tokens s | None => false end.

Definition satisfied_count (state : TransferState) : nat :=
  (Nat.b2n (filled (destinationCountry state))
   + Nat.b2n (filled (amount state))
   + Nat.b2n (name_satisfied (beneficiaryName state))
   + Nat.b2n (filled (deliveryMethod state)))%nat.

Definition progress_fraction (state : TransferState) : Q :=
  inject_Z (Z.of_nat (satisfied_count state)) / 4.

End PanelSpec.

(* ================================================================== *)
(** ** services/geminiService.ts *)
(* ================================================================== *)

Definition dquote : string := String (ascii_of_nat 34) EmptyString.
Definition backslash : string := String (ascii_of_nat 92) EmptyString.
Definition newline : string := String (ascii_of_nat 10) EmptyString.

(** [Number.prototype.toString] on an integer. *)
Definition Z_toString (z : Z) : string := NilZero.string_of_int (Z.to_int z).

Module Gemini.

Definition hex_digit (n : nat) : ascii :=
  ascii_of_nat (if (n <? 10)%nat then 48 + n else 87 + n)%nat.

(** One character inside a JSON string literal, as [JSON.stringify]
    writes it. *)
Definition quote_char (c : ascii) : string :=
  let n := nat_of_ascii c in
  if (n =? 34)%nat then backslash ++ dquote
  else if (n =? 92)%nat then backslash ++ backslash
  else if (n =? 8)%nat then backslash ++ "b"
  else if (n =? 9)%nat then backslash ++ "t"
  else if (n =? 10)%nat then backslash ++ "n"
  else if (n =? 12)%nat then backslash ++ "f"
  else if (n =? 13)%nat then backslash ++ "r"
  else if (n <? 32)%nat then
    backslash ++ "u00"
      ++ String (hex_digit (n / 16)) (String (hex_digit (n mod 16)) EmptyString)
  else String c EmptyString.

Fixpoint quote_chars (s : string) : string :=
  match s with
  | EmptyString => EmptyString
  | String c s' => quote_char c ++ quote_chars s'
  end.

Definition quote (s : string) : string := dquote ++ quote_chars s ++ dquote.

Definition PROMO_IMAGE_URL : string :=
"https://cdn.prod.website-files.com/663002023d3d42ffa6937084/692e0e7ee90ceebca6e1077c_home-troca.avif".
Definition PROMO_LINK : string := "https://www.felixpago.com".

Fixpoint stringify_entries (m : list (string * string)) : string :=
match m with
| [] => EmptyString
| [(k, v)] => quote k ++ ":" ++ quote v
| (k, v) :: m' => quote k ++ ":" ++ quote v ++ "," ++ stringify_entries m'
end.

(** [JSON.stringify] on a record of strings, without indentation. *)
Definition stringify_map (m : list (string * string)) : string :=
"{" ++ stringify_entries m ++ "}".

(** The policy handed to the model as system instruction, line by line. *)
Definition SYSTEM_INSTRUCTION : string :=
  newline
  ++ "You are a helpful, professional, and friendly Send Money Agent. " ++ newline
  ++ "Your goal is to collect the following information from the user to initiate a money transfer:" ++ newline
  ++ "1. Destination Country" ++ newline
  ++ "2. Amount (value + currency)" ++ newline
  ++ "3. Beneficiary Name (MUST be Full Name: First + Last)" ++ newline
  ++ "4. Delivery Method" ++ newline
  ++ newline
  ++ "VALIDATION DATA (Strictly enforce these):" ++ newline
  ++ "- Supported Countries: " ++ join ", " VALID_COUNTRIES ++ newline
  ++ "- Supported Delivery Methods: " ++ join ", " VALID_METHODS ++ newline
  ++ "- Currency Mapping: " ++ stringify_map COUNTRY_CURRENCY_MAP ++ newline
  ++ "- Beneficiary Name: Must consist of at least TWO words (First Name and Last Name)." ++ newline
  ++ newline
  ++ "LANGUAGE & LOCALIZATION:" ++ newline
  ++ "- DETECT the user's language based on their latest input." ++ newline
  ++ "- ALWAYS respond in the EXACT SAME language as the user." ++ newline
  ++ "- If the user speaks Portuguese, the entire 'agentResponse' AND the 'promo' text (if applicable) must be in Portuguese." ++ newline
  ++ "- Internal State Mapping: If the user provides a value in their language (e.g., " ++ dquote ++ "Brasil" ++ dquote ++ ", " ++ dquote ++ "Alemanha" ++ dquote ++ "), map it to the corresponding English value from VALIDATION DATA (e.g., " ++ dquote ++ "Brazil" ++ dquote ++ ", " ++ dquote ++ "Germany" ++ dquote ++ ") for the 'updatedState' JSON." ++ newline
  ++ newline
  ++ "STRICT ENTITY GUARDRAILS (Crucial to prevent confusion):" ++ newline
  ++ "1. **Name vs Country/Method**: BEFORE assigning a value to 'beneficiaryName', CHECK if that value matches a 'Supported Country' or 'Delivery Method'. " ++ newline
  ++ "   - IF matches a Country: Update 'destinationCountry' instead, and re-ask for the Beneficiary Name." ++ newline
  ++ "   - IF matches a Method: Update 'deliveryMethod' instead, and re-ask for the Beneficiary Name (unless the name is already valid)." ++ newline
  ++ "   - NEVER assign a country name (e.g., " ++ dquote ++ "Brazil" ++ dquote ++ ", " ++ dquote ++ "France" ++ dquote ++ ") or a method (e.g., " ++ dquote ++ "Bank" ++ dquote ++ ", " ++ dquote ++ "Wallet" ++ dquote ++ ") to 'beneficiaryName'." ++ newline
  ++ newline
  ++ "2. **Step Jumping & Correction**:" ++ newline
  ++ "   - Users might correct a previous field at any time. If the user says " ++ dquote ++ "Actually, send to France" ++ dquote ++ " while you are asking for the Name, update 'destinationCountry' to 'France' and re-state the context." ++ newline
  ++ newline
  ++ "HANDLING AMBIGUITY & INFERENCE:" ++ newline
  ++ "- Underspecified Beneficiary (STRICT): If the user provides only a first name (e.g., " ++ dquote ++ "John" ++ dquote ++ "), update 'beneficiaryName' to " ++ dquote ++ "John" ++ dquote ++ " BUT explicitly ask for the Last Name in your response. " ++ newline
  ++ "  - **CRITICAL**: If the user ignores this request and provides other info, update the other info BUT **DO NOT** finalize the transaction. You MUST ask for the Last Name again." ++ newline
  ++ "- City Inference: If the user names a major city (e.g., " ++ dquote ++ "Paris" ++ dquote ++ ", " ++ dquote ++ "Tokyo" ++ dquote ++ ") instead of a country, infer the correct country if it is in the Supported Countries list." ++ newline
  ++ "- Currency Inference: " ++ newline
  ++ "  - If the Destination Country is known (e.g., Brazil), and the user provides an amount without currency (e.g., " ++ dquote ++ "500" ++ dquote ++ "), INFER the correct currency from the Currency Mapping (e.g., " ++ dquote ++ "500 BRL" ++ dquote ++ ")." ++ newline
  ++ "  - If the Destination Country is NOT known, assume USD temporarily or ask the user." ++ newline
  ++ "- Currency Validation:" ++ newline
  ++ "  - If the user explicitly provides a currency that DOES NOT match the destination country (e.g., " ++ dquote ++ "100 Euros to USA" ++ dquote ++ "), politely inform them of the correct currency (USD) and ask if they want to proceed with the correct currency." ++ newline
  ++ "- Vague Intent: If the user says " ++ dquote ++ "I want to send money" ++ dquote ++ ", ask " ++ dquote ++ "Which country would you like to send money to?" ++ dquote ++ " as the first step." ++ newline
  ++ newline
  ++ "VALIDATION: " ++ newline
  ++ "- If the user specifies a country NOT in the Supported Countries list, kindly inform them which countries are supported (list 3-4 examples) and leave 'destinationCountry' as null." ++ newline
  ++ "- If the user specifies a method NOT in the Supported Delivery Methods list, list the available options and leave 'deliveryMethod' as null." ++ newline
  ++ newline
  ++ "RESET: If the user explicitly asks to " ++ dquote ++ "Start Over" ++ dquote ++ ", " ++ dquote ++ "Reset" ++ dquote ++ ", or " ++ dquote ++ "Cancel" ++ dquote ++ ", set all state fields to null and isComplete to false." ++ newline
  ++ newline
  ++ "COMPLETION & PROMOTION:" ++ newline
  ++ "Set 'isComplete' to true ONLY if all 4 fields are valid (full name required)." ++ newline
  ++ newline
  ++ "Once 'isComplete' is true, summarize the details and ask for confirmation." ++ newline
  ++ newline
  ++ "**FINAL CONFIRMATION TRIGGER:**" ++ newline
  ++ newline
  ++ "If (and ONLY if):" ++ newline
  ++ newline
  ++ "1. 'isComplete' is true (or was already true)." ++ newline
  ++ newline
  ++ "2. The user explicitly CONFIRMS the transaction (e.g., " ++ dquote ++ "Yes" ++ dquote ++ ", " ++ dquote ++ "Correct" ++ dquote ++ ", " ++ dquote ++ "Ok" ++ dquote ++ ", " ++ dquote ++ "Send" ++ dquote ++ ")." ++ newline
  ++ newline
  ++ "THEN:" ++ newline
  ++ newline
  ++ "1. Respond with a polite closing message confirming the transaction is processing." ++ newline
  ++ newline
  ++ "2. INCLUDE the 'promo' object in the JSON response." ++ newline
  ++ newline
  ++ "3. TRANSLATE the promo content to the user's language based on this English Template:" ++ newline
  ++ newline
  ++ "   - Title: " ++ dquote ++ "Send money home and enter to win a Ford F-150 XL" ++ dquote ++ newline
  ++ newline
  ++ "   - Description: " ++ dquote ++ "All your transfers in December of $100 or more enter the draw." ++ dquote ++ newline
  ++ newline
  ++ "   - Button: " ++ dquote ++ "Send and participate now" ++ dquote ++ newline
  ++ newline
  ++ "   - Footer: " ++ dquote ++ "T&Cs apply. Promotion not valid for NY and FL." ++ dquote ++ newline
  ++ newline
  ++ "   - Image URL: " ++ dquote ++ PROMO_IMAGE_URL ++ dquote ++ " (Do not translate URL)" ++ newline
  ++ newline
  ++ "   - Link: " ++ dquote ++ PROMO_LINK ++ dquote ++ " (Do not translate URL)" ++ newline
  ++ newline
  ++ "If the transaction is NOT confirmed or NOT complete, 'promo' must be null." ++ newline
  ++ newline
  ++ "- Do NOT hallucinate values." ++ newline.

Definition stringify_nullable (v : option string) : string :=
  match v with Some s => quote s | None => "null" end.

Definition stringify_bool (b : bool) : string :=
  if b then "true" else "false".

(** [JSON.stringify(currentState, null, 2)] on a [TransferState] whose
    properties are in the order of the interface. *)
Definition stringify_state (st : TransferState) : string :=
  "{" ++ newline
  ++ "  " ++ quote "destinationCountry" ++ ": "
       ++ stringify_nullable (destinationCountry st) ++ "," ++ newline
  ++ "  " ++ quote "amount" ++ ": "
       ++ stringify_nullable (amount st) ++ "," ++ newline
  ++ "  " ++ quote "beneficiaryName" ++ ": "
       ++ stringify_nullable (beneficiaryName st) ++ "," ++ newline
  ++ "  " ++ quote "deliveryMethod" ++ ": "
       ++ stringify_nullable (deliveryMethod st) ++ "," ++ newline
  ++ "  " ++ quote "isComplete" ++ ": "
       ++ stringify_bool (isComplete st) ++ newline
  ++ "}".

(** [m.role.toUpperCase()] *)
Definition role_toUpperCase (r : Role) : string :=
  match r with user => "USER" | agent => "AGENT" end.

(** [`${m.role.toUpperCase()}: ${m.content}`] *)
Definition history_line (m : Message) : string :=
  role_toUpperCase (Message.role m) ++ ": " ++ Message.content m.

Definition chatHistoryText (messageHistory : list Message) : string :=
  join newline (map history_line (slice (-10) messageHistory)).

(** The fixed pieces of the prompt template. *)
Definition prompt_head : string :=
  newline ++ "      Current Internal State:" ++ newline ++ "      ".
Definition prompt_before_history : string :=
  newline ++ newline ++ "      Conversation History:" ++ newline ++ "      ".
Definition prompt_before_input : string :=
  newline ++ newline ++ "      User's Latest Input:" ++ newline ++ "      " ++ dquote.
Definition prompt_tail : string :=
  dquote ++ newline ++ newline
  ++ "      Based on the history and the latest input, return the JSON object with the natural language response and the updated state."
  ++ newline ++ "    ".

Definition prompt (userMessage : string) (currentState : TransferState)
    (messageHistory : list Message) : string :=
  prompt_head ++ stringify_state currentState
  ++ prompt_before_history ++ chatHistoryText messageHistory
  ++ prompt_before_input ++ userMessage
  ++ prompt_tail.

(** The response schema handed to the model. *)
Inductive Schema : Type :=
| SString (nullable : bool) (description : option string)
| SBoolean (description : option string)
| SObject (nullable : bool) (description : option string)
          (properties : list (string * Schema)) (required : list string).

Definition responseSchema : Schema :=
  SObject false None
    [ ("agentResponse",
        SString false (Some "The natural language response to the user."));
      ("updatedState",
        SObject false None
          [ ("destinationCountry", SString true None);
            ("amount", SString true (Some "Format: '100 USD', '500 BRL'"));
            ("beneficiaryName", SString true None);
            ("deliveryMethod", SString true None);
            ("isComplete",
              SBoolean (Some "True only if all 4 fields are collected and VALID (including full name check).")) ]
          ["destinationCountry"; "amount"; "beneficiaryName"; "deliveryMethod";
           "isComplete"]);
      ("promo",
        SObject true (Some "Include ONLY when user CONFIRMS the final transaction.")
          [ ("imageUrl", SString false None); ("title", SString false None);
            ("description", SString false None);
            ("buttonText", SString false None); ("link", SString false None);
            ("footer", SString false None) ]
          ["imageUrl"; "title"; "description"; "buttonText"; "link"; "footer"]) ]
    ["agentResponse"; "updatedState"].

(** One [ai.models.generateContent] call, with the key the client was
    built from. *)
Record ModelCall : Type := {
  apiKey : string;
  model : string;
  contents : string;
  systemInstruction : string;
  responseMimeType : string;
  schema : Schema;
  temperature : Q
}.

(** What the service takes from its surroundings: the environment
    variables, the text of the system instruction (a constant of the
    module, whose wording no property below depends on), the hosted model
    ([result.text] of a call, or the error the client or the call throws)
    and [JSON.parse] read at the type [AgentResponse]. *)
Record Runtime : Type := {
  GEMINI_API_KEY : option string;
  API_KEY : option string;
    generateContent : ModelCall -> Exc (option string);
  JSON_parse : string -> Exc AgentResponse
}.

(** [a || b] on environment variables. *)
Definition env_or (a b : option string) : option string :=
  match a with
  | Some s => if is_empty s then b else a
  | None => b
  end.

Definition falsy_string (v : option string) : bool :=
  match v with Some s => is_empty s | None => true end.

Definition apology : string :=
  "I'm having trouble connecting to the network right now. Please try again in a moment.".

(** The object the [catch] block returns: it has no [promo] property. *)
Definition fallback (currentState : TransferState) : AgentResponse :=
  {| AgentResponse.agentResponse := apology;
     AgentResponse.updatedState := currentState;
     AgentResponse.promo := None |}.

Definition call (rt : Runtime) (key prompt : string) : ModelCall :=
  {| apiKey := key;
     model := "gemini-2.5-flash";
     contents := prompt;
     systemInstruction := SYSTEM_INSTRUCTION;
     responseMimeType := "application/json";
     schema := responseSchema;
     temperature := 1 # 10 |}.

(** The [try] block of [processUserMessage]. *)
Definition attempt (rt : Runtime) (userMessage : string)
    (currentState : TransferState) (messageHistory : list Message)
  : Eff ModelCall AgentResponse :=
  (let apiKey := env_or (GEMINI_API_KEY rt) (API_KEY rt) in
   key <- match apiKey with
          | Some k =>
              if is_empty k
              then throw (Error "GEMINI_API_KEY or API_KEY environment variable is not set")
              else ret k
          | None =>
              throw (Error "GEMINI_API_KEY or API_KEY environment variable is not set")
          end ;;
   let request := call rt key (prompt userMessage currentState messageHistory) in
   emit request ;;;
   text <- lift (generateContent rt request) ;;
   match text with
   | Some t =>
       if is_empty t then throw (Error "No response from Gemini")
       else lift (JSON_parse rt t)
   | None => throw (Error "No response from Gemini")
   end)%eff.

Definition processUserMessage (rt : Runtime) (userMessage : string)
    (currentState : TransferState) (messageHistory : list Message)
  : Eff ModelCall AgentResponse :=
  try_catch (attempt rt userMessage currentState messageHistory)
            (fun _ => ret (fallback currentState)).

End Gemini.

(* ================================================================== *)
(** ** app/api/chat/route.ts *)
(* ================================================================== *)

(** What [NextResponse.json(payload, { status })] is asked to build; the
    status is 200 when none is given. *)
Inductive Body : Type :=
| ErrorBody (error : JSValue)
| DataBody (data : JSValue)
| AgentBody (response : AgentResponse).

Record HttpResponse : Type := {
  status : Z;
  body : Body
}.

Definition json_response (b : Body) : HttpResponse := {| status := 200; body := b |}.

Definition error_response (message : JSValue) (code : Z) : HttpResponse :=
  {| status := code; body := ErrorBody message |}.

(** An incoming request: what [await request.json()] gives. *)
Record Request : Type := {
  json : Exc JSValue
}.

(** The test both routes make on [userMessage]:
    [!userMessage || typeof userMessage !== 'string']. *)
Definition userMessage_rejected (userMessage : JSValue) : bool :=
  negb (ToBoolean userMessage) || negb (typeof_is_string userMessage).

Definition string_of (v : JSValue) : string :=
  match v with JString s => s | _ => EmptyString end.

Fixpoint indexed {A} (f : A -> JSValue) (i : nat) (l : list A) : list (string * JSValue) :=
  match l with
  | [] => []
  | a :: l' => (NilZero.string_of_uint (Nat.to_uint i), f a) :: indexed f (S i) l'
  end.

(** Own enumerable properties, as the spread [{ ...msg }] copies them. *)
Definition spread (v : JSValue) : list (string * JSValue) :=
  match v with
  | JObject ps => ps
  | JArray els => indexed (fun x => x) 0 els
  | JString s =>
      indexed (fun c => JString (String c EmptyString)) 0 (list_ascii_of_string s)
  | _ => []
  end.

(** Whether converting the value to a primitive (for [new Date(v)]) or to a
    string (for a URL query parameter) throws.  Parsed JSON holds no
    function, so an own property [toString] of an object hides the inherited
    method with something that cannot be called, and the conversion throws
    a [TypeError]; an array is converted by joining its elements, each
    converted in turn ([null] gives the empty string); every other value
    converts. *)
Fixpoint unconvertible (v : JSValue) : bool :=
  match v with
  | JObject ps =>
      match lookup "toString" ps with Some _ => true | None => false end
  | JArray els =>
      (fix any (l : list JSValue) : bool :=
         match l with
         | [] => false
         | x :: l' => unconvertible x || any l'
         end) els
  | _ => false
  end.

(** [new Date(v)] *)
Definition new_Date (v : JSValue) : Exc JSValue :=
  if unconvertible v
  then Throw (TypeError "Cannot convert object to primitive value")
  else Return (JDate v).

(** [{ ...msg, timestamp: msg.timestamp instanceof Date ? msg.timestamp
                                                     : new Date(msg.timestamp) }] *)
Definition normalize_message (msg : JSValue) : Exc JSValue :=
  Exc_bind (Get msg "timestamp") (fun ts =>
  Exc_bind (match ts with JDate _ => Return ts | _ => new_Date ts end) (fun date =>
    Return (JObject (set_property "timestamp" date (spread msg))))).

(** [(messageHistory || []).map(...)]: only an array has [map]. *)
Definition normalize_history (messageHistory : JSValue) : Exc (list JSValue) :=
  match or_else messageHistory (JArray []) with
  | JArray msgs => Exc_map normalize_message msgs
  | _ => Throw (TypeError "map is not a function")
  end.

(** The statuses a response must not carry a body with. *)
Definition null_body_status (code : Z) : bool :=
  (code =? 101) || (code =? 103) || (code =? 204) || (code =? 205) || (code =? 304).

(** [NextResponse.json(payload, { status })] with a status that is not a
    constant of the program: the response constructor throws a [RangeError]
    for a status outside 200 to 599, and a [TypeError] for a status that
    allows no body. *)
Definition NextResponse_json (b : Body) (code : Z) : Exc HttpResponse :=
  if (code <? 200) || (599 <? code)
  then Throw (RangeError "init.status must be in the range of 200 to 599")
  else if null_body_status code
  then Throw (TypeError "Invalid response status code")
  else Return {| status := code; body := b |}.

Definition internal_server_error : HttpResponse :=
  error_response (JString "Internal server error") 500.

Definition userMessage_required : HttpResponse :=
  error_response (JString "userMessage is required and must be a string") 400.

(** The route that calls the model service itself. *)
Module ChatRoute.

(** The service's surroundings, and the unchecked casts of the route:
    [currentState as TransferState] and the history at [Message[]].  The
    casts describe what the service reads for a request at the declared
    types; for a value outside them (a history entry without a [role], say)
    the service throws inside its own [try] before it calls the model and
    returns the fallback, so what the service does is only stated of
    requests whose values the casts read faithfully. *)
Record Runtime : Type := {
  service : Gemini.Runtime;
  as_TransferState : JSValue -> TransferState;
  as_Messages : list JSValue -> list Message
}.

Definition currentState_required : HttpResponse :=
  error_response (JString "currentState is required") 400.

(** The [try] block of [POST]. *)
Definition handler (rt : Runtime) (request : Request)
  : Eff Gemini.ModelCall HttpResponse :=
  (body <- lift (json request) ;;
   userMessage <- lift (Get body "userMessage") ;;
   currentState <- lift (Get body "currentState") ;;
   messageHistory <- lift (Get body "messageHistory") ;;
   if userMessage_rejected userMessage then ret userMessage_required
   else if negb (ToBoolean currentState) then ret currentState_required
   else
     normalizedHistory <- lift (normalize_history messageHistory) ;;
     response <- Gemini.processUserMessage (service rt)
                   (string_of userMessage)
                   (as_TransferState rt currentState)
                   (as_Messages rt normalizedHistory) ;;
     ret (json_response (AgentBody response)))%eff.

Definition POST (rt : Runtime) (request : Request)
  : Eff Gemini.ModelCall HttpResponse :=
  try_catch (handler rt request) (fun _ => ret internal_server_error).

End ChatRoute.

(** The route that forwards to the Python service. *)
Module ProxyRoute.

(** The request [fetch] is called with: [url] is the string [new URL] is
    built from and [session_id] the value given to
    [url.searchParams.set('session_id', ...)], which converts it to a
    string. *)
Record FetchRequest : Type := {
  url : string;
  session_id : option JSValue;
  method : string;
  content_type : string;
  payload : JSValue
}.

(** The backend's answer: its status and what [response.json()] gives. *)
Record FetchResponse : Type := {
  response_status : Z;
  response_json : Exc JSValue
}.

(** [response.ok]: the status is in the range 200 to 299. *)
Definition ok (r : FetchResponse) : bool :=
  (200 <=? response_status r) && (response_status r <=? 299).

(** The surroundings of the route: the two environment variables, the
    URL parser (whether [new URL] accepts a string) and the backend behind
    [fetch], which answers or fails. *)
Record Runtime : Type := {
  env_PYTHON_SERVICE_URL : option string;
  env_NEXT_PUBLIC_PYTHON_SERVICE_URL : option string;
  URL_accepts : string -> bool;
  fetch : FetchRequest -> Exc FetchResponse
}.

Definition PYTHON_SERVICE_URL (rt : Runtime) : string :=
  match Gemini.env_or (Gemini.env_or (env_PYTHON_SERVICE_URL rt)
                                     (env_NEXT_PUBLIC_PYTHON_SERVICE_URL rt))
                      (Some "http://localhost:8000") with
  | Some u => u
  | None => "http://localhost:8000"
  end.

(** [s.replace(/\/$/, '')]: one slash at the very end is removed. *)
Fixpoint strip_trailing_slash (s : string) : string :=
  match s with
  | EmptyString => EmptyString
  | String c s' =>
      match s' with
      | EmptyString => if (nat_of_ascii c =? 47)%nat then EmptyString else s
      | String _ _ => String c (strip_trailing_slash s')
      end
  end.

Definition python_service_error : JSValue := JString "Python service error".

(** [errorBody?.detail || 'Python service error'], where [errorBody] is
    [await response.json().catch(() => ({}))]. *)
Definition error_detail (r : FetchResponse) : JSValue :=
  let errorBody := match response_json r with
                   | Return v => v
                   | Throw _ => JObject []
                   end in
  or_else (GetOpt errorBody "detail") python_service_error.

(** The part of the [try] block before [fetch]: an early answer, or the
    request to forward. *)
Definition before_fetch (rt : Runtime) (request : Request)
  : Exc (HttpResponse + FetchRequest) :=
  Exc_bind (json request) (fun body =>
  Exc_bind (Get body "userMessage") (fun userMessage =>
  Exc_bind (Get body "messageHistory") (fun messageHistory =>
  Exc_bind (Get body "sessionId") (fun sessionId =>
    if userMessage_rejected userMessage then Return (inl userMessage_required)
    else
      Exc_bind (normalize_history messageHistory) (fun normalizedHistory =>
        let target := strip_trailing_slash (PYTHON_SERVICE_URL rt) ++ "/api/chat" in
        if URL_accepts rt target then
          if ToBoolean sessionId && unconvertible sessionId
          then Throw (TypeError "Cannot convert object to primitive value")
          else
            Return (inr {| url := target;
                           session_id := if ToBoolean sessionId
                                         then Some sessionId else None;
                           method := "POST";
                           content_type := "application/json";
                           payload := JObject
                             [("userMessage", userMessage);
                              ("messageHistory", JArray normalizedHistory)] |})
        else Throw (TypeError "Invalid URL")))))).

(** The part after [fetch] has answered. *)
Definition after_fetch (response : FetchResponse) : Exc HttpResponse :=
  if negb (ok response) then
    NextResponse_json (ErrorBody (error_detail response)) (response_status response)
  else
    Exc_bind (response_json response) (fun data =>
      Return (json_response (DataBody data))).

(** The [try] block of [POST]. *)
Definition handler (rt : Runtime) (request : Request)
  : Eff FetchRequest HttpResponse :=
  (r <- lift (before_fetch rt request) ;;
   match r with
   | inl early => ret early
   | inr forwarded =>
       emit forwarded ;;;
       response <- lift (fetch rt forwarded) ;;
       lift (after_fetch response)
   end)%eff.

Definition POST (rt : Runtime) (request : Request)
  : Eff FetchRequest HttpResponse :=
  try_catch (handler rt request) (fun _ => ret internal_server_error).

End ProxyRoute.

(* ================================================================== *)
(** ** app/page.tsx *)
(* ================================================================== *)

Module Page.

Definition INITIAL_STATE : TransferState :=
  {| destinationCountry := None;
     amount := None;
     beneficiaryName := None;
     deliveryMethod := None;
     isComplete := false |}.

(** [loaded] is [new Date()] at the time the module is evaluated. *)
Definition INITIAL_MESSAGE (loaded : Date) : Message :=
  {| Message.id := "init-1";
     Message.role := agent;
     Message.content :=
       "Hi! I'm your Send Money Assistant. How can I help you with your transfer today?";
     Message.timestamp := loaded;
     Message.promo := None |}.

(** The body of the request to [/api/chat]. *)
Module ChatRequest.
Record t : Type := {
  userMessage : string;
  messageHistory : list Message;
  sessionId : string
}.
End ChatRequest.
Abbreviation ChatRequest := ChatRequest.t.

(** A call of [handleSendMessage] suspended at [await fetch(...)]: the
    request it sent, and the [transferState] of the render that created
    the handler, which the rest of the function still refers to. *)
Record Pending : Type := {
  sent : ChatRequest;
  captured_transferState : TransferState
}.

(** The React state of [Home], and the calls in flight. *)
Record Home : Type := {
  messages : list Message;
  transferState : TransferState;
  inputValue : string;
  isLoading : bool;
  isMobileMenuOpen : bool;
  sessionId : string;
  in_flight : list Pending
}.

(** What the identifier generator draws on: [crypto.randomUUID], absent
    in some browsers, the clock, and
    [Math.random().toString(36).substr(2, 9)]. *)
Record Entropy : Type := {
  randomUUID : option string;
  clock : Z;
  random36 : string
}.

(** [crypto.randomUUID?.() || `session-${Date.now()}-${...}`] *)
Definition new_session_id (e : Entropy) : string :=
  let generated := "session-" ++ Z_toString (clock e) ++ "-" ++ random36 e in
  match randomUUID e with
  | Some u => if is_empty u then generated else u
  | None => generated
  end.

(** The initialiser of the [sessionId] state. *)
Definition initial_session_id (window_defined : bool) (e : Entropy) : string :=
  if window_defined then new_session_id e
  else "session-" ++ Z_toString (clock e).

Definition initial (loaded : Date) (window_defined : bool) (e : Entropy) : Home :=
  {| messages := [INITIAL_MESSAGE loaded];
     transferState := INITIAL_STATE;
     inputValue := EmptyString;
     isLoading := false;
     isMobileMenuOpen := false;
     sessionId := initial_session_id window_defined e;
     in_flight := [] |}.

Definition js_trim (s : string) : string :=
  string_of_list_ascii (trim is_space (list_ascii_of_string s)).

(** [handleSendMessage], up to the call of [fetch]; [now] is the clock. *)
Definition handleSendMessage (now : Z) (h : Home) : Home :=
  if is_empty (js_trim (inputValue h)) || isLoading h then h
  else
    let userText := js_trim (inputValue h) in
    let userMsg := {| Message.id := Z_toString now;
                      Message.role := user;
                      Message.content := userText;
                      Message.timestamp := now;
                      Message.promo := None |} in
    let newHistory := (messages h ++ [userMsg])%list in
    {| messages := newHistory;
       transferState := transferState h;
       inputValue := EmptyString;
       isLoading := true;
       isMobileMenuOpen := isMobileMenuOpen h;
       sessionId := sessionId h;
       in_flight :=
         (in_flight h
          ++ [{| sent := {| ChatRequest.userMessage := userText;
                            ChatRequest.messageHistory := newHistory;
                            ChatRequest.sessionId := sessionId h |};
                 captured_transferState := transferState h |}])%list |}.

(** The body [response.json()] gives, read at the type [AgentResponse];
    a property that is absent or [null] is [None]. *)
Record ResponseData : Type := {
  agentResponse : option string;
  updatedState : option TransferState;
  promo : option PromoData
}.

(** How the awaited [fetch] ends: it rejects, or it gives a response with
its [ok] flag and the result of [response.json()], where a throw stands
for a body that is not JSON or on which reading a property throws. *)
Inductive Outcome : Type :=
| FetchRejects
| Responds (ok : bool) (parsed : Exc ResponseData).

Definition connection_trouble : string :=
  "I'm having trouble connecting right now. Please try again in a moment.".

(** The [try] block after the [await]: the agent message and the new
    transfer state, or a throw. *)
Definition accept (now : Z) (captured : TransferState) (o : Outcome)
  : Exc (Message * TransferState) :=
  match o with
  | FetchRejects => Throw (TypeError "fetch failed")
  | Responds false _ => Throw (Error "Failed to get response from server")
  | Responds true (Throw e) => Throw e
  | Responds true (Return data) =>
      match agentResponse data with
      | Some text =>
          if is_empty text
          then Throw (Error "Invalid response format: missing agentResponse")
          else
            Return ({| Message.id := Z_toString (now + 1);
                       Message.role := agent;
                       Message.content := text;
                       Message.timestamp := now;
                       Message.promo := promo data |},
                    match updatedState data with
                    | Some st => st
                    | None => captured
                    end)
      | None => Throw (Error "Invalid response format: missing agentResponse")
      end
  end.

(** The rest of [handleSendMessage] for one suspended call: [try],
    [catch] and [finally]. *)
Definition resume (now : Z) (p : Pending) (o : Outcome) (h : Home) : Home :=
  match accept now (captured_transferState p) o with
  | Return (agentMsg, st) =>
      {| messages := (messages h ++ [agentMsg])%list;
         transferState := st;
         inputValue := inputValue h;
         isLoading := false;
         isMobileMenuOpen := isMobileMenuOpen h;
         sessionId := sessionId h;
         in_flight := in_flight h |}
  | Throw _ =>
      let errorMsg := {| Message.id := Z_toString (now + 1);
                         Message.role := agent;
                         Message.content := connection_trouble;
                         Message.timestamp := now;
                         Message.promo := None |} in
      {| messages := (messages h ++ [errorMsg])%list;
         transferState := transferState h;
         inputValue := inputValue h;
         isLoading := false;
         isMobileMenuOpen := isMobileMenuOpen h;
         sessionId := sessionId h;
         in_flight := in_flight h |}
  end.

Fixpoint remove_nth {A} (n : nat) (l : list A) : list A :=
  match n, l with
  | _, [] => []
  | O, _ :: l' => l'
  | S n', a :: l' => a :: remove_nth n' l'
  end.

Definition handleReset (loaded : Date) (e : Entropy) (h : Home) : Home :=
  {| messages := [INITIAL_MESSAGE loaded];
     transferState := INITIAL_STATE;
     inputValue := EmptyString;
     isLoading := isLoading h;
     isMobileMenuOpen := isMobileMenuOpen h;
     sessionId := new_session_id e;
     in_flight := in_flight h |}.

(** What can happen to the page. *)
Inductive Event : Type :=
| Change (text : string)
| Submit (now : Z)
| Settle (which : nat) (o : Outcome) (now : Z)
| Reset (e : Entropy)
| ToggleMenu
| CloseMenu.

Definition step (loaded : Date) (ev : Event) (h : Home) : Home :=
  match ev with
  | Change text =>
      {| messages := messages h;
         transferState := transferState h;
         inputValue := text;
         isLoading := isLoading h;
         isMobileMenuOpen := isMobileMenuOpen h;
         sessionId := sessionId h;
         in_flight := in_flight h |}
  | Submit now => handleSendMessage now h
  | Settle which o now =>
      match nth_error (in_flight h) which with
      | Some p =>
          let h' := resume now p o h in
          {| messages := messages h';
             transferState := transferState h';
             inputValue := inputValue h';
             isLoading := isLoading h';
             isMobileMenuOpen := isMobileMenuOpen h';
             sessionId := sessionId h';
             in_flight := remove_nth which (in_flight h) |}
      | None => h
      end
  | Reset e => handleReset loaded e h
  | ToggleMenu =>
      {| messages := messages h;
         transferState := transferState h;
         inputValue := inputValue h;
         isLoading := isLoading h;
         isMobileMenuOpen := negb (isMobileMenuOpen h);
         sessionId := sessionId h;
         in_flight := in_flight h |}
  | CloseMenu =>
      {| messages := messages h;
         transferState := transferState h;
         inputValue := inputValue h;
         isLoading := isLoading h;
         isMobileMenuOpen := false;
         sessionId := sessionId h;
         in_flight := in_flight h |}
  end.

(** The page after a sequence of events, oldest first. *)
Fixpoint run (loaded : Date) (evs : list Event) (h : Home) : Home :=
  match evs with
  | [] => h
  | ev :: evs' => run loaded evs' (step loaded ev h)
  end.

(** The states the page can be in. *)
Inductive reachable (loaded : Date) : Home -> Prop :=
| reachable_initial : forall window_defined e,
    reachable loaded (initial loaded window_defined e)
| reachable_step : forall ev h,
    reachable loaded h -> reachable loaded (step loaded ev h).

End Page.

(* ================================================================== *)
(** ** The specification's vocabulary *)
(* ================================================================== *)

(** The [userMessage] of a request; [undefined] when the body has none. *)
Definition userMessage_of (request : Request) : JSValue :=
  match json request with
  | Return requestBody => GetOpt requestBody "userMessage"
  | Throw _ => JUndefined
  end.

(** A [userMessage] that is missing, empty, or not a string. *)
Definition missing_empty_or_not_a_string (v : JSValue) : Prop :=
  v = JUndefined \/ v = JString EmptyString \/ typeof_is_string v = false.

(** The body was read and can be destructured: it is neither [null] nor
    [undefined]. *)
Definition destructurable (request : Request) : bool :=
  match json request with
  | Return JNull | Return JUndefined | Throw _ => false
  | Return _ => true
  end.

(** The completion rule of the specification: the flag is set exactly
    when the four slots are filled and the name has two tokens or more. *)
Definition fields_complete (st : TransferState) : bool :=
  PanelSpec.filled (destinationCountry st)
  && PanelSpec.filled (amount st)
  && PanelSpec.name_satisfied (beneficiaryName st)
  && PanelSpec.filled (deliveryMethod st).

Definition completion_rule (st : TransferState) : Prop :=
  isComplete st = fields_complete st.

(** Every state a response of the trace carries obeys the rule. *)
Definition carries_ruled_state (ev : Page.Event) : Prop :=
  match ev with
  | Page.Settle _ (Page.Responds _ (Return data)) _ =>
      match Page.updatedState data with
      | Some st => completion_rule st
      | None => True
      end
  | _ => True
  end.

(** The rule holds of the page's state and of every state a suspended call
    has captured. *)
Definition ruled (page : Page.Home) : Prop :=
  completion_rule (Page.transferState page)
  /\ Forall (fun p => completion_rule (Page.captured_transferState p))
            (Page.in_flight page).

(** The specification's reading of "the state serialised as structured
    text": JSON, where a null field is written [null] and a string between
    quotation marks, each character as the grammar of JSON strings
    prescribes. *)
Module PromptSpec.

Definition hex_digits : string := "0123456789abcdef".

Definition json_char (c : ascii) : string :=
  match nat_of_ascii c with
  | 8%nat => backslash ++ "b"
  | 9%nat => backslash ++ "t"
  | 10%nat => backslash ++ "n"
  | 12%nat => backslash ++ "f"
  | 13%nat => backslash ++ "r"
  | 34%nat => backslash ++ dquote
  | 92%nat => backslash ++ backslash
  | n =>
      if (n <? 32)%nat
      then backslash ++ "u00" ++ substring (n / 16) 1 hex_digits
                     ++ substring (n mod 16) 1 hex_digits
      else String c EmptyString
  end.

Definition json_string (s : string) : string :=
  dquote ++ String.concat EmptyString (map json_char (list_ascii_of_string s))
  ++ dquote.

Definition json_nullable (v : option string) : string :=
  match v with Some s => json_string s | None => "null" end.

(** A string of printable characters other than the quotation mark and the
    backslash: it is written as it is. *)
Definition plain (s : string) : bool :=
  forallb (fun c => let n := nat_of_ascii c in
                    ((32 <=? n) && negb (n =? 34) && negb (n =? 92))%nat)
          (list_ascii_of_string s).

End PromptSpec.



(** The model invocation fails: no key is configured, the call throws
    (the network, the provider), the answer has no text, or the text does
    not parse. *)
Definition invocation_fails (rt : Gemini.Runtime) (userMessage : string)
    (currentState : TransferState) (messageHistory : list Message) : Prop :=
  let key := Gemini.env_or (Gemini.GEMINI_API_KEY rt) (Gemini.API_KEY rt) in
  let request :=
    Gemini.call rt (match key with Some k => k | None => EmptyString end)
      (Gemini.prompt userMessage currentState messageHistory) in
  Gemini.falsy_string key = true
  \/ (exists e, Gemini.generateContent rt request = Throw e)
  \/ (exists text, Gemini.generateContent rt request = Return text
                   /\ Gemini.falsy_string text = true)
  \/ (exists t e, Gemini.generateContent rt request = Return (Some t)
                  /\ Gemini.JSON_parse rt t = Throw e).

(** The answer the specification promises for a malformed request. *)
Definition answered_400 (rt : ProxyRoute.Runtime) (request : Request) : Prop :=
  exists answer, ProxyRoute.POST rt request = ([], Return answer)
                 /\ status answer = 400.

(* ================================================================== *)
(** ** Sample surroundings and inputs for the examples *)
(* ================================================================== *)

Module Sample.

(** A backend that refuses every request with status 422. *)
Definition refusing_backend : ProxyRoute.Runtime :=
  {| ProxyRoute.env_PYTHON_SERVICE_URL := Some "http://127.0.0.1:8000/";
     ProxyRoute.env_NEXT_PUBLIC_PYTHON_SERVICE_URL := None;
     ProxyRoute.URL_accepts := fun _ => true;
     ProxyRoute.fetch := fun _ =>
       Return {| ProxyRoute.response_status := 422;
                 ProxyRoute.response_json :=
                   Return (JObject [("detail", JString "Unprocessable")]) |} |}.

(** A backend that cannot be reached. *)
Definition unreachable_backend : ProxyRoute.Runtime :=
  {| ProxyRoute.env_PYTHON_SERVICE_URL := None;
     ProxyRoute.env_NEXT_PUBLIC_PYTHON_SERVICE_URL := None;
     ProxyRoute.URL_accepts := fun _ => true;
     ProxyRoute.fetch := fun _ => Throw (TypeError "fetch failed") |}.

Definition hello_request : Request :=
  {| json := Return (JObject [("userMessage", JString "hello");
                              ("messageHistory", JArray []);
                              ("sessionId", JString "s-1")]) |}.

Definition null_request : Request := {| json := Return JNull |}.

Definition hello_forwarded : ProxyRoute.FetchRequest :=
  {| ProxyRoute.url := "http://127.0.0.1:8000/api/chat";
     ProxyRoute.session_id := Some (JString "s-1");
     ProxyRoute.method := "POST";
     ProxyRoute.content_type := "application/json";
     ProxyRoute.payload := JObject [("userMessage", JString "hello");
                                    ("messageHistory", JArray [])] |}.

(** A service without any key in its environment. *)
Definition keyless_service : Gemini.Runtime :=
  {| Gemini.GEMINI_API_KEY := None;
     Gemini.API_KEY := None;
          Gemini.generateContent := fun _ => Return None;
     Gemini.JSON_parse := fun _ => Throw (SyntaxError "Unexpected token") |}.

(** A service with a key, whose model stays silent. *)
Definition silent_service : Gemini.Runtime :=
  {| Gemini.GEMINI_API_KEY := Some "k-123";
     Gemini.API_KEY := None;
          Gemini.generateContent := fun _ => Return None;
     Gemini.JSON_parse := fun _ => Throw (SyntaxError "Unexpected token") |}.

Definition chat_runtime : ChatRoute.Runtime :=
  {| ChatRoute.service := silent_service;
     ChatRoute.as_TransferState := fun _ => Page.INITIAL_STATE;
     ChatRoute.as_Messages := fun _ => [] |}.

Definition to_brazil : TransferState :=
  {| destinationCountry := Some "Brazil";
     amount := Some "500 BRL";
     beneficiaryName := None;
     deliveryMethod := None;
     isComplete := false |}.

Definition browser : Page.Entropy :=
  {| Page.randomUUID := Some "123e4567-e89b-42d3-a456-426614174000";
     Page.clock := 1700000000000;
     Page.random36 := "k3j9x0q1z" |}.

Definition loaded_at : Date := 1700000000000.

Definition fresh_page : Page.Home := Page.initial loaded_at true browser.

(** The page after the user typed and sent a first message. *)
Definition waiting_page : Page.Home :=
  Page.step loaded_at (Page.Submit 1700000001000)
    (Page.step loaded_at (Page.Change "send money to Brazil") fresh_page).

Definition answer (text : string) (st : option TransferState) : Page.Outcome :=
  Page.Responds true
    (Return {| Page.agentResponse := Some text;
               Page.updatedState := st;
               Page.promo := None |}).

(** A state no rule of the policy allows: complete, with nothing filled. *)
Definition complete_but_empty : TransferState :=
  {| destinationCountry := None;
     amount := None;
     beneficiaryName := None;
     deliveryMethod := None;
     isComplete := true |}.

(** One exchange whose answer carries [complete_but_empty]. *)
Definition unruly_exchange : list Page.Event :=
  [ Page.Change "hi";
    Page.Submit 1700000001000;
    Page.Settle 0 (answer "All set!" (Some complete_but_empty)) 1700000002000 ].

(** One exchange whose answer obeys the completion rule. *)
Definition ruly_exchange : list Page.Event :=
  [ Page.Change "send 500 to Brazil";
    Page.Submit 1700000001000;
    Page.Settle 0 (answer "Who is the beneficiary?" (Some to_brazil)) 1700000002000 ].

(** A first exchange fills two slots; a second message is sent and,
    while it is in flight, the user resets the page. *)
Definition reset_while_waiting : list Page.Event :=
  (ruly_exchange
   ++ [ Page.Change "by bank deposit";
        Page.Submit 1700000003000;
        Page.Reset {| Page.randomUUID := Some "9b2f6c1e-58d4-4c0a-8f3e-0d6a7b1c2e4f";
                      Page.clock := 1700000004000;
                      Page.random36 := "a1b2c3d4e" |} ])%list.

End Sample.

(* ================================================================== *)
(** ** StatePanel.tsx: the rows *)
(* ================================================================== *)

(** What the panel draws for each step, below the progress bar. *)
Module StatePanelRow.

Inductive Style : Type := WarningStyle | SuccessStyle | EmptyStyle.

(** [step.value !== null] *)
Definition isCompleted (step : StatePanel.Step) : bool :=
  match StatePanel.value step with Some _ => true | None => false end.

(** [step.key === 'beneficiaryName' && isCompleted &&
     step.value.trim().split(/\s+/).length < 2] *)
Definition isWarning (step : StatePanel.Step) : bool :=
  String.eqb (StatePanel.key step) "beneficiaryName"
  && isCompleted step
  && match StatePanel.value step with
     | Some v => StatePanel.isWarning v
     | None => false
     end.

(** The style of the icon box, of the text and of the status icon. *)
Definition style (step : StatePanel.Step) : Style :=
  if isWarning step then WarningStyle
  else if isCompleted step then SuccessStyle
  else EmptyStyle.

(** [step.value || step.placeholder] *)
Definition shown_text (step : StatePanel.Step) : string :=
  match StatePanel.value step with
  | Some v => if is_empty v then StatePanel.placeholder step else v
  | None => StatePanel.placeholder step
  end.

(** The line under the text: the warning, or the hint of an empty step. *)
Definition shown_note (step : StatePanel.Step) : option string :=
  if isWarning step then Some "Full name required"
  else if negb (isCompleted step) then
    match StatePanel.hint step with
    | Some h => if is_empty h then None else Some h
    | None => None
    end
  else None.

(** [state.isComplete ? 'READY' : 'COLLECTING'] *)
Definition status_label (state : TransferState) : string :=
  if isComplete state then "READY" else "COLLECTING".

End StatePanelRow.

(* ================================================================== *)
(** ** ChatBubble.tsx *)
(* ================================================================== *)

Module ChatBubble.

(** [message.role === 'agent'] *)
Definition isAgent (message : Message) : bool :=
  match Message.role message with agent => true | user => false end.

Definition placeholder_image : string :=
  "https://placehold.co/600x400/e2e8f0/64748b?text=Promo+Image".

(** [useFallbackImage ? placeholder : message.promo?.imageUrl ?? ''] *)
Definition promoImageSrc (useFallbackImage : bool) (message : Message) : string :=
  if useFallbackImage then placeholder_image
  else match Message.promo message with
       | Some p => imageUrl p
       | None => EmptyString
       end.

(** [isAgent && message.promo]: whether the promo card is drawn. *)
Definition shows_promo_card (message : Message) : bool :=
  isAgent message
  && match Message.promo message with Some _ => true | None => false end.

End ChatBubble.

(* ================================================================== *)
(** ** The request of the page, as the route reads it *)
(* ================================================================== *)

(** [JSON.stringify] of the body the page posts, then [request.json()]:
    strings stay as they are, a [Date] becomes its ISO string ([iso]), and a
    property that is [undefined] is left out. *)
Module Wire.

Definition role_name (r : Role) : string :=
  match r with user => "user" | agent => "agent" end.

Definition of_promo (p : PromoData) : JSValue :=
  JObject [("imageUrl", JString (imageUrl p));
           ("title", JString (title p));
           ("description", JString (description p));
           ("buttonText", JString (buttonText p));
           ("link", JString (link p));
           ("footer", JString (footer p))].

Definition of_message (iso : Date -> string) (m : Message) : JSValue :=
  JObject ([("id", JString (Message.id m));
            ("role", JString (role_name (Message.role m)));
            ("content", JString (Message.content m));
            ("timestamp", JString (iso (Message.timestamp m)))]
           ++ match Message.promo m with
              | Some p => [("promo", of_promo p)]
              | None => []
              end)%list.

Definition of_request (iso : Date -> string) (r : Page.ChatRequest) : Request :=
  {| json := Return (JObject
       [("userMessage", JString (Page.ChatRequest.userMessage r));
        ("messageHistory",
          JArray (map (of_message iso) (Page.ChatRequest.messageHistory r)));
        ("sessionId", JString (Page.ChatRequest.sessionId r))]) |}.

End Wire.

(** A request body at the declared types: the JSON value of a transfer
    state, with the five properties of the interface in their order, and a
    history entry that is an object with the role and the content of a
    message. *)
Definition nullable_value (v : option string) : JSValue :=
  match v with Some s => JString s | None => JNull end.

Definition state_value (st : TransferState) : JSValue :=
  JObject [("destinationCountry", nullable_value (destinationCountry st));
           ("amount", nullable_value (amount st));
           ("beneficiaryName", nullable_value (beneficiaryName st));
           ("deliveryMethod", nullable_value (deliveryMethod st));
           ("isComplete", JBool (isComplete st))].

Definition represents (v : JSValue) (m : Message) : Prop :=
  exists ps,
    v = JObject ps
    /\ lookup "role" ps = Some (JString (Wire.role_name (Message.role m)))
    /\ lookup "content" ps = Some (JString (Message.content m)).

(* ================================================================== *)
(** ** Vocabulary for the page's invariants *)
(* ================================================================== *)

(** A request as [handleSendMessage] builds it: the text is not empty and
    is its own trimming, the session identifier is not empty, and the
    history ends with the user's message carrying that text. *)
Definition request_well_formed (r : Page.ChatRequest) : Prop :=
  is_empty (Page.ChatRequest.userMessage r) = false
  /\ Page.js_trim (Page.ChatRequest.userMessage r) = Page.ChatRequest.userMessage r
  /\ is_empty (Page.ChatRequest.sessionId r) = false
  /\ exists earlier msg,
       Page.ChatRequest.messageHistory r = (earlier ++ [msg])%list
       /\ Message.role msg = user
       /\ Message.content msg = Page.ChatRequest.userMessage r
       /\ Message.promo msg = None.

Definition is_reset (ev : Page.Event) : bool :=
  match ev with Page.Reset _ => true | _ => false end.

(** The outcome is an OK response whose body has a non-empty
    [agentResponse]: the one case in which the [try] block completes. *)
Definition accepted_answer (o : Page.Outcome) : bool :=
  match o with
  | Page.Responds true (Return data) =>
      match Page.agentResponse data with
      | Some text => negb (is_empty text)
      | None => false
      end
  | _ => false
  end.

(** The events that call [setTransferState]. *)
Definition sets_transfer_state (ev : Page.Event) : bool :=
  match ev with
  | Page.Reset _ => true
  | Page.Settle _ o _ => accepted_answer o
  | _ => false
  end.

(** The string ends with a slash. *)
Fixpoint ends_with_slash (s : string) : bool :=
  match s with
  | EmptyString => false
  | String c EmptyString => (nat_of_ascii c =? 47)%nat
  | String _ s' => ends_with_slash s'
  end.

(** An entry of a history on which [msg.timestamp] can be read. *)
Definition readable_entry (msg : JSValue) : bool :=
  match msg with JNull | JUndefined => false | _ => true end.

(** An entry of a history that normalises: its [timestamp] can be read and
    can be made a [Date]. *)
Definition normalisable_entry (msg : JSValue) : bool :=
  readable_entry msg && negb (unconvertible (GetOpt msg "timestamp")).

(** Reading back one character of a JSON string literal: the inverse of
    [Gemini.quote_char], used to show that quoting is unambiguous. *)
Definition hex_value (c : ascii) : option nat :=
  let n := nat_of_ascii c in
  if ((48 <=? n) && (n <=? 57))%nat then Some (n - 48)%nat
  else if ((97 <=? n) && (n <=? 102))%nat then Some (n - 87)%nat
  else None.

Definition unquote_char (s : string) : option (ascii * string) :=
  match s with
  | EmptyString => None
  | String a rest =>
      if (nat_of_ascii a =? 92)%nat then
        match rest with
        | EmptyString => None
        | String b rest' =>
            let n := nat_of_ascii b in
            if (n =? 34)%nat then Some (ascii_of_nat 34, rest')
            else if (n =? 92)%nat then Some (ascii_of_nat 92, rest')
            else if (n =? 98)%nat then Some (ascii_of_nat 8, rest')
            else if (n =? 116)%nat then Some (ascii_of_nat 9, rest')
            else if (n =? 110)%nat then Some (ascii_of_nat 10, rest')
            else if (n =? 102)%nat then Some (ascii_of_nat 12, rest')
            else if (n =? 114)%nat then Some (ascii_of_nat 13, rest')
            else if (n =? 117)%nat then
              match rest' with
              | String z1 (String z2 (String h1 (String h2 rest''))) =>
                  match hex_value z1, hex_value z2, hex_value h1, hex_value h2 with
                  | Some 0%nat, Some 0%nat, Some x, Some y =>
                      Some (ascii_of_nat (16 * x + y), rest'')
                  | _, _, _, _ => None
                  end
              | _ => None
              end
            else None
        end
      else if (nat_of_ascii a =? 34)%nat then None
      else Some (a, rest)
  end.

(* ================================================================== *)
(** ** Further sample inputs *)
(* ================================================================== *)

Module Scenario.

(** The request that [Sample.waiting_page] has in flight. *)
Definition first_message : Message :=
  {| Message.id := "1700000001000";
     Message.role := user;
     Message.content := "send money to Brazil";
     Message.timestamp := 1700000001000;
     Message.promo := None |}.

Definition first_call : Page.Pending :=
  {| Page.sent :=
       {| Page.ChatRequest.userMessage := "send money to Brazil";
          Page.ChatRequest.messageHistory :=
            [Page.INITIAL_MESSAGE Sample.loaded_at; first_message];
          Page.ChatRequest.sessionId := "123e4567-e89b-42d3-a456-426614174000" |};
     Page.captured_transferState := Page.INITIAL_STATE |}.

(** A rendering of dates for the wire; its details play no part. *)
Definition iso (d : Date) : string := "t" ++ Z_toString d.

(** A first exchange, then a second message still waiting for its
    answer; no reset. *)
Definition second_message_waiting : list Page.Event :=
  (Sample.ruly_exchange
   ++ [Page.Change "by bank deposit"; Page.Submit 1700000003000])%list.

(** A backend that answers every request with the same reply. *)
Definition reply : JSValue :=
  JObject [("agentResponse", JString "Which country?");
           ("updatedState", JNull)].

Definition answering_backend : ProxyRoute.Runtime :=
  {| ProxyRoute.env_PYTHON_SERVICE_URL := Some "http://127.0.0.1:8000/";
     ProxyRoute.env_NEXT_PUBLIC_PYTHON_SERVICE_URL := None;
     ProxyRoute.URL_accepts := fun _ => true;
     ProxyRoute.fetch := fun _ =>
       Return {| ProxyRoute.response_status := 200;
                 ProxyRoute.response_json := Return reply |} |}.

(** Ten turns, and one older turn. *)
Definition turn (n : Z) : Message :=
  {| Message.id := Z_toString n;
     Message.role := user;
     Message.content := "turn " ++ Z_toString n;
     Message.timestamp := n;
     Message.promo := None |}.

Definition ten_turns : list Message := map turn [1; 2; 3; 4; 5; 6; 7; 8; 9; 10].

Definition valid_chat_body : JSValue :=
  JObject [("userMessage", JString "hello");
           ("currentState", JObject [("isComplete", JBool false)]);
           ("messageHistory", JArray [])].

Definition body_with_null_turn : JSValue :=
  JObject [("userMessage", JString "hello");
           ("messageHistory", JArray [JNull])].

(** A backend that answers every request with status 304. *)
Definition not_modified_backend : ProxyRoute.Runtime :=
  {| ProxyRoute.env_PYTHON_SERVICE_URL := Some "http://127.0.0.1:8000/";
     ProxyRoute.env_NEXT_PUBLIC_PYTHON_SERVICE_URL := None;
     ProxyRoute.URL_accepts := fun _ => true;
     ProxyRoute.fetch := fun _ =>
       Return {| ProxyRoute.response_status := 304;
                 ProxyRoute.response_json :=
                   Return (JObject [("detail", JString "Not Modified")]) |} |}.


(** A model-backed route whose casts read a request at the declared
    types. *)
Definition typed_chat_runtime : ChatRoute.Runtime :=
  {| ChatRoute.service := Sample.silent_service;
     ChatRoute.as_TransferState := fun _ => Sample.to_brazil;
     ChatRoute.as_Messages := fun _ => [first_message] |}.

Definition typed_chat_body : JSValue :=
  JObject [("userMessage", JString "hello");
           ("currentState", state_value Sample.to_brazil);
           ("messageHistory",
             JArray [JObject [("id", JString "1700000001000");
                              ("role", JString "user");
                              ("content", JString "send money to Brazil");
                              ("timestamp", JString "2023-11-14T22:13:21.000Z")]])].

Definition typed_chat_history : list JSValue :=
  [JObject [("id", JString "1700000001000");
            ("role", JString "user");
            ("content", JString "send money to Brazil");
            ("timestamp", JDate (JString "2023-11-14T22:13:21.000Z"))]].

End Scenario.

(* ================================================================== *)
(** * Properties *)
(* ================================================================== *)

(** Running a handler: the monad's operations are unfolded and the logs
    concatenated. *)
Ltac run_eff :=
  unfold lift, bind, ret, emit, throw, try_catch; cbn [app fst snd].

(** ** Splitting on white space and counting tokens *)

Section WhiteSpaceFacts.
Context {char : Type} (is_ws : char -> bool).

Lemma tokens_cons_cons (c c' : char) (l : list char) :
  tokens is_ws (c :: c' :: l)
  = if is_ws c then tokens is_ws (c' :: l)
    else if is_ws c' then [c] :: tokens is_ws (c' :: l)
         else match tokens is_ws (c' :: l) with
              | t :: ts => (c :: t) :: ts
              | [] => [[c]]
              end.
Proof. reflexivity. Qed.

Lemma tokens_trimStart (l : list char) :
  tokens is_ws (trimStart is_ws l) = tokens is_ws l.
Proof.
  induction l as [|c l IH]; simpl; [reflexivity|].
  destruct (is_ws c) eqn:Hc; [exact IH|].
  simpl. rewrite Hc. reflexivity.
Qed.

Lemma trimEnd_nil_tokens (l : list char) :
  trimEnd is_ws l = [] -> tokens is_ws l = [].
Proof.
  induction l as [|c l IH]; simpl; [reflexivity|].
  destruct (trimEnd is_ws l) eqn:Ht.
  - destruct (is_ws c); [intros _; apply IH; reflexivity | discriminate].
  - discriminate.
Qed.

Lemma tokens_trimEnd (l : list char) :
  tokens is_ws (trimEnd is_ws l) = tokens is_ws l.
Proof.
  induction l as [|c l IH]; [reflexivity|].
  cbn [trimEnd].
  destruct (trimEnd is_ws l) as [|d r] eqn:Ht.
  - pose proof (trimEnd_nil_tokens l Ht) as Hn.
    destruct (is_ws c) eqn:Hc.
    + simpl. rewrite Hc. symmetry. exact Hn.
    + simpl. rewrite Hc.
      destruct l as [|c' l']; [reflexivity|].
      rewrite Hn.
      destruct (is_ws c'); reflexivity.
  - destruct l as [|c' l']; [discriminate|].
    rewrite !tokens_cons_cons.
    destruct (is_ws c) eqn:Hc.
    + exact IH.
    + assert (Hd : is_ws d = is_ws c').
      { cbn [trimEnd] in Ht.
        destruct (trimEnd is_ws l').
        - destruct (is_ws c') eqn:Hc'; [discriminate | congruence].
        - congruence. }
      rewrite Hd, IH. reflexivity.
Qed.

Lemma trimEnd_fixed_tail (c : char) (l : list char) :
  trimEnd is_ws (c :: l) = c :: l ->
  l = [] \/ (l <> [] /\ trimEnd is_ws l = l).
Proof.
  cbn [trimEnd].
  destruct (trimEnd is_ws l) as [|d r] eqn:Ht.
  - destruct (is_ws c); [discriminate|].
    intros H. left. congruence.
  - intros H. right. split; [|congruence].
    intros ->. discriminate.
Qed.

(** On a string without white space at its end, splitting yields the
    tokens, provided the scan is not at a leading separator. *)
Lemma split_ws_is_tokens (l : list char) :
  l <> [] -> trimEnd is_ws l = l ->
  split_ws is_ws true l = tokens is_ws l /\
  (forall c l', l = c :: l' -> is_ws c = false ->
                split_ws is_ws false l = tokens is_ws l).
Proof.
  induction l as [|c l IH]; [congruence|].
  intros _ Hfix.
  destruct (trimEnd_fixed_tail c l Hfix) as [-> | [Hne Hl]].
  - cbn [trimEnd] in Hfix.
    destruct (is_ws c) eqn:Hc; [discriminate|].
    simpl. rewrite Hc. split; [reflexivity|].
    intros; reflexivity.
  - destruct (IH Hne Hl) as [IHt IHf].
    assert (Hnon : is_ws c = false ->
                   forall b, split_ws is_ws b (c :: l) = tokens is_ws (c :: l)).
    { intros Hc b. cbn [split_ws tokens]. rewrite Hc.
      destruct l as [|c' l']; [congruence|].
      destruct (is_ws c') eqn:Hc'.
      - cbn [split_ws]. rewrite Hc'.
        cbn [split_ws tokens] in IHt. rewrite Hc' in IHt.
        cbn [tokens]. rewrite Hc'. rewrite IHt. reflexivity.
      - rewrite (IHf c' l' eq_refl Hc'). reflexivity. }
    split.
    + destruct (is_ws c) eqn:Hc.
      * cbn [split_ws tokens]. rewrite Hc. exact IHt.
      * apply Hnon. reflexivity.
    + intros c0 l0 Heq Hc0. injection Heq as <- <-.
      apply Hnon. exact Hc0.
Qed.

Lemma trimEnd_idempotent (l : list char) :
  trimEnd is_ws (trimEnd is_ws l) = trimEnd is_ws l.
Proof.
  induction l as [|c l IH]; [reflexivity|].
  cbn [trimEnd].
  destruct (trimEnd is_ws l) as [|d r] eqn:Ht.
  - destruct (is_ws c) eqn:Hc; [reflexivity|].
    simpl. rewrite Hc. reflexivity.
  - cbn [trimEnd]. cbn [trimEnd] in IH.
    destruct (trimEnd is_ws r) as [|d' r'] eqn:Hr.
    + destruct (is_ws d); [discriminate|]. rewrite IH. reflexivity.
    + rewrite IH. reflexivity.
Qed.

Lemma trim_head (l : list char) :
  trim is_ws l = [] \/
  exists c r, trim is_ws l = c :: r /\ is_ws c = false.
Proof.
  unfold trim.
  assert (Hs : trimStart is_ws l = [] \/
               exists c r, trimStart is_ws l = c :: r /\ is_ws c = false).
  { induction l as [|c l IH]; [left; reflexivity|].
    simpl. destruct (is_ws c) eqn:Hc; [exact IH|].
    right. exists c, l. split; [reflexivity | exact Hc]. }
  destruct Hs as [-> | (c & r & -> & Hc)]; [left; reflexivity|].
  right. cbn [trimEnd].
  destruct (trimEnd is_ws r) as [|d r'].
  - rewrite Hc. exists c, []. split; [reflexivity | exact Hc].
  - exists c, (d :: r'). split; [reflexivity | exact Hc].
Qed.

Lemma tokens_trim (l : list char) :
  tokens is_ws (trim is_ws l) = tokens is_ws l.
Proof.
  unfold trim. rewrite tokens_trimEnd. apply tokens_trimStart.
Qed.

(** The pieces of the trimmed string are its tokens, except that the
    empty string has one (empty) piece and no token. *)
Lemma split_trim_length (l : list char) :
  List.length (split_ws is_ws false (trim is_ws l))
  = Nat.max 1 (List.length (tokens is_ws l)).
Proof.
  rewrite <- (tokens_trim l).
  destruct (trim_head l) as [-> | (c & r & Heq & Hc)]; [reflexivity|].
  assert (Hfix : trimEnd is_ws (trim is_ws l) = trim is_ws l)
    by (unfold trim; apply trimEnd_idempotent).
  rewrite Heq in *.
  destruct (split_ws_is_tokens (c :: r)) as [_ Hf]; [discriminate | exact Hfix |].
  rewrite (Hf c r eq_refl Hc).
  cbn [tokens]. rewrite Hc.
  destruct r as [|c' r']; [reflexivity|].
  destruct (is_ws c'); [reflexivity|].
  destruct (tokens is_ws (c' :: r')); reflexivity.
Qed.

Lemma split_trim_two_pieces (l : list char) :
  (List.length (split_ws is_ws false (trim is_ws l)) <? 2)%nat
  = negb (2 <=? List.length (tokens is_ws l))%nat.
Proof.
  rewrite split_trim_length.
  destruct (List.length (tokens is_ws l)) as [|[|n]]; reflexivity.
Qed.
End WhiteSpaceFacts.

(** ** The state panel *)

Lemma name_done_iff_two_tokens (v : string) :
  negb (StatePanel.isWarning v) = PanelSpec.two_tokens v.
Proof.
  unfold StatePanel.isWarning, PanelSpec.two_tokens.
  rewrite split_trim_two_pieces. apply negb_involutive.
Qed.

Lemma completedStepsCount_counts_satisfied (state : TransferState) :
  StatePanel.completedStepsCount state = PanelSpec.satisfied_count state.
Proof.
  destruct state as [country amt name method done].
  unfold StatePanel.completedStepsCount, PanelSpec.satisfied_count,
    StatePanel.steps, StatePanel.fully_done.
  cbn [filter StatePanel.value StatePanel.key destinationCountry amount
       beneficiaryName deliveryMethod].
  change (String.eqb "destinationCountry" "beneficiaryName") with false.
  change (String.eqb "amount" "beneficiaryName") with false.
  change (String.eqb "beneficiaryName" "beneficiaryName") with true.
  change (String.eqb "deliveryMethod" "beneficiaryName") with false.
  cbv iota.
  destruct name as [v|]; cbn [PanelSpec.name_satisfied];
    [rewrite (name_done_iff_two_tokens v); destruct (PanelSpec.two_tokens v)|];
    destruct country, amt, method; reflexivity.
Qed.

(** C6.  For every transfer state, the number of steps the panel counts as
    fully done is the number of satisfied slots (destination, amount and
    method satisfied when non-null, the beneficiary name when non-null with
    at least two white-space-separated tokens), and the progress it shows
    is that number over four, as a percentage. *)
Theorem progress_is_satisfied_over_four (state : TransferState) :
  StatePanel.completedStepsCount state = PanelSpec.satisfied_count state /\
  (StatePanel.percentage state == PanelSpec.progress_fraction state * 100)%Q.
Proof.
  split; [apply completedStepsCount_counts_satisfied|].
  unfold StatePanel.percentage, PanelSpec.progress_fraction.
  rewrite completedStepsCount_counts_satisfied.
  reflexivity.
Qed.

(** ** The prompt of the model service *)

Lemma slice_last (A : Type) (n : nat) (l : list A) :
  (0 < n)%nat ->
  slice (- Z.of_nat n) l = skipn (List.length l - n) l.
Proof.
  intros Hn. unfold slice.
  assert (H : (- Z.of_nat n <? 0) = true) by (apply Z.ltb_lt; lia).
  rewrite H. f_equal. lia.
Qed.

Lemma slice_last_suffix (A : Type) (n : nat) (l : list A) :
  (0 < n)%nat ->
  l = (firstn (List.length l - n) l ++ slice (- Z.of_nat n) l)%list /\
  List.length (slice (- Z.of_nat n) l) = Nat.min n (List.length l).
Proof.
  intros Hn. rewrite slice_last by exact Hn. split.
  - symmetry. apply firstn_skipn.
  - rewrite length_skipn. lia.
Qed.

Lemma append_assoc (a b c : string) : (a ++ b) ++ c = a ++ (b ++ c).
Proof. induction a as [|x a IH]; cbn; [reflexivity | rewrite IH; reflexivity]. Qed.

Lemma quote_char_is_json_char (c : ascii) :
  Gemini.quote_char c = PromptSpec.json_char c.
Proof.
  destruct c as [[|] [|] [|] [|] [|] [|] [|] [|]]; reflexivity.
Qed.

Lemma quote_is_json_string (s : string) :
  Gemini.quote s = PromptSpec.json_string s.
Proof.
  unfold Gemini.quote, PromptSpec.json_string. f_equal. f_equal.
  induction s as [|c s IH]; [reflexivity|].
  cbn [Gemini.quote_chars list_ascii_of_string map].
  rewrite IH, quote_char_is_json_char.
  destruct (map PromptSpec.json_char (list_ascii_of_string s)) as [|x l] eqn:Hl.
  - cbn. destruct (PromptSpec.json_char c); cbn; [reflexivity|].
    f_equal. clear. induction s0 as [|y s0 IH]; cbn; [reflexivity | f_equal; exact IH].
  - reflexivity.
Qed.

Lemma stringify_nullable_is_json (v : option string) :
  Gemini.stringify_nullable v = PromptSpec.json_nullable v.
Proof. destruct v; [apply quote_is_json_string | reflexivity]. Qed.

Lemma plain_char_is_itself (c : ascii) :
  (let n := nat_of_ascii c in
   ((32 <=? n) && negb (n =? 34) && negb (n =? 92))%nat) = true ->
  PromptSpec.json_char c = String c EmptyString.
Proof.
  destruct c as [[|] [|] [|] [|] [|] [|] [|] [|]]; cbv zeta;
    intros H; try reflexivity; vm_compute in H; discriminate.
Qed.

Lemma plain_string_is_quoted_as_is (s : string) :
  PromptSpec.plain s = true -> PromptSpec.json_string s = dquote ++ s ++ dquote.
Proof.
  unfold PromptSpec.plain, PromptSpec.json_string. intros H. f_equal. f_equal.
  induction s as [|c s IH]; [reflexivity|].
  cbn [list_ascii_of_string forallb map] in *.
  apply andb_true_iff in H as [Hc Hs].
  specialize (IH Hs). rewrite (plain_char_is_itself c Hc).
  destruct (map PromptSpec.json_char (list_ascii_of_string s)) as [|x l] eqn:Hl.
  - cbn in *. rewrite <- IH. reflexivity.
  - change (String.concat EmptyString (String c EmptyString :: x :: l))
      with (String c (String.concat EmptyString (x :: l))).
    rewrite IH. reflexivity.
Qed.

Lemma join_is_concat (sep : string) (l : list string) :
  join sep l = String.concat sep l.
Proof.
  induction l as [|x l IH]; [reflexivity|].
  destruct l as [|y l]; [reflexivity|].
  cbn [join String.concat] in *. rewrite IH. reflexivity.
Qed.

(** C5.  For every history of messages (at the declared type: role [user]
    or [agent], text content), the prompt is the fixed template filled with
    three things: the current state as indented JSON, each of the four
    fields written [null] or as a JSON string (a field of plain characters
    as it is, between quotation marks) and the flag as [true] or [false];
    one line [USER: text] or [AGENT: text] for each of the most recent
    messages of the history, which are its last ten in their original order
    (all of them when there are ten or fewer); and the latest user input
    between quotation marks.  With a key configured, this prompt is the
    content of the one call the service sends to the model. *)
Theorem prompt_carries_last_ten_messages
    (rt : Gemini.Runtime) (key userMessage : string)
    (currentState : TransferState) (messageHistory : list Message)
    (Hkey : Gemini.env_or (Gemini.GEMINI_API_KEY rt) (Gemini.API_KEY rt) = Some key)
    (Hset : is_empty key = false) :
  exists older recent : list Message,
    messageHistory = (older ++ recent)%list /\
    List.length recent = Nat.min 10 (List.length messageHistory) /\
    Gemini.prompt userMessage currentState messageHistory
    = (newline ++ "      Current Internal State:" ++ newline ++ "      ")
      ++ ("{" ++ newline
          ++ "  " ++ (dquote ++ "destinationCountry" ++ dquote) ++ ": "
             ++ PromptSpec.json_nullable (destinationCountry currentState)
             ++ "," ++ newline
          ++ "  " ++ (dquote ++ "amount" ++ dquote) ++ ": "
             ++ PromptSpec.json_nullable (amount currentState)
             ++ "," ++ newline
          ++ "  " ++ (dquote ++ "beneficiaryName" ++ dquote) ++ ": "
             ++ PromptSpec.json_nullable (beneficiaryName currentState)
             ++ "," ++ newline
          ++ "  " ++ (dquote ++ "deliveryMethod" ++ dquote) ++ ": "
             ++ PromptSpec.json_nullable (deliveryMethod currentState)
             ++ "," ++ newline
          ++ "  " ++ (dquote ++ "isComplete" ++ dquote) ++ ": "
             ++ (if isComplete currentState then "true" else "false") ++ newline
          ++ "}")
      ++ (newline ++ newline ++ "      Conversation History:" ++ newline ++ "      ")
      ++ String.concat newline
           (map (fun m => match Message.role m with
                          | user => "USER"
                          | agent => "AGENT"
                          end ++ ": " ++ Message.content m)
                recent)
      ++ (newline ++ newline ++ "      User's Latest Input:" ++ newline
          ++ "      " ++ dquote)
      ++ userMessage
      ++ (dquote ++ newline ++ newline
          ++ "      Based on the history and the latest input, return the JSON object with the natural language response and the updated state."
          ++ newline ++ "    ") /\
    (forall s, PromptSpec.plain s = true ->
               PromptSpec.json_nullable (Some s) = dquote ++ s ++ dquote) /\
    map Gemini.contents
        (fst (Gemini.processUserMessage rt userMessage currentState messageHistory))
    = [Gemini.prompt userMessage currentState messageHistory].
Proof.
  exists (firstn (List.length messageHistory - 10) messageHistory),
         (slice (-10) messageHistory).
  destruct (slice_last_suffix Message 10 messageHistory) as [Hsplit Hlen]; [lia|].
  split; [exact Hsplit|]. split; [exact Hlen|]. split; [|split].
  - unfold Gemini.prompt, Gemini.stringify_state, Gemini.chatHistoryText.
    rewrite !stringify_nullable_is_json, join_is_concat. reflexivity.
  - intros s Hs. apply plain_string_is_quoted_as_is. exact Hs.
  - unfold Gemini.processUserMessage, Gemini.attempt.
    rewrite Hkey, Hset. run_eff.
    destruct (Gemini.generateContent rt _) as [[t|]|e]; try reflexivity.
    destruct (is_empty t); [reflexivity|].
    destruct (Gemini.JSON_parse rt t); reflexivity.
Qed.

(** ** Failure of the model service *)

(** The [try] block throws exactly when the invocation fails. *)
Lemma attempt_throws_iff (rt : Gemini.Runtime) (userMessage : string)
    (currentState : TransferState) (messageHistory : list Message) :
  (exists e, snd (Gemini.attempt rt userMessage currentState messageHistory) = Throw e)
  <-> invocation_fails rt userMessage currentState messageHistory.
Proof.
  unfold invocation_fails. cbv zeta. unfold Gemini.attempt.
  destruct (Gemini.env_or _ _) as [k|]; cbn [Gemini.falsy_string];
    [destruct (is_empty k) eqn:Hk|].
  - split; [intros _; left; reflexivity | intros _; eexists; reflexivity].
  - unfold bind, ret, emit, lift, throw. cbn [fst snd app].
    destruct (Gemini.generateContent rt _) as [[t|]|e]; cbn [snd].
    + destruct (is_empty t) eqn:Ht.
      * split; [|intros _; eexists; reflexivity].
        intros _. right; right; left. exists (Some t). split; [reflexivity | exact Ht].
      * cbn [fst snd app]. destruct (Gemini.JSON_parse rt t) as [r|e] eqn:Hp; cbn [snd].
        -- split; [intros [e He]; discriminate|].
           intros [H|[[e H]|[(text & H1 & H2)|(t' & e & H1 & H2)]]];
             try discriminate.
           ++ injection H1 as <-. cbn in H2. congruence.
           ++ injection H1 as <-. congruence.
        -- split; [|intros _; eexists; reflexivity].
           intros _. right; right; right. exists t, e. split; [reflexivity | exact Hp].
    + split; [|intros _; eexists; reflexivity].
      intros _. right; right; left. exists None. split; reflexivity.
    + split; [|intros _; eexists; reflexivity].
      intros _. right; left. exists e. reflexivity.
  - split; [intros _; left; reflexivity | intros _; eexists; reflexivity].
Qed.

Lemma processUserMessage_returns (rt : Gemini.Runtime) (userMessage : string)
    (currentState : TransferState) (messageHistory : list Message) :
  exists r, snd (Gemini.processUserMessage rt userMessage currentState messageHistory)
            = Return r.
Proof.
  unfold Gemini.processUserMessage, try_catch.
  destruct (Gemini.attempt rt userMessage currentState messageHistory) as [l [a|e]];
    cbn; eexists; reflexivity.
Qed.

(** C2.  Whatever the inputs and the surroundings, when the model
    invocation fails (the key is missing, the call throws, the answer is
    empty or does not parse), [processUserMessage] returns the fixed apology
    with the state it was given and without promo; and in no case does
    [processUserMessage] itself throw. *)
Theorem processUserMessage_falls_back
    (rt : Gemini.Runtime) (userMessage : string)
    (currentState : TransferState) (messageHistory : list Message)
    (Hfails : invocation_fails rt userMessage currentState messageHistory) :
  snd (Gemini.processUserMessage rt userMessage currentState messageHistory)
  = Return {| AgentResponse.agentResponse :=
                "I'm having trouble connecting to the network right now. Please try again in a moment.";
              AgentResponse.updatedState := currentState;
              AgentResponse.promo := None |}
  /\ forall rt' userMessage' currentState' messageHistory' e',
       snd (Gemini.processUserMessage rt' userMessage' currentState' messageHistory')
       <> Throw e'.
Proof.
  split.
  - apply attempt_throws_iff in Hfails as [e Hthrown].
    unfold Gemini.processUserMessage, try_catch.
    destruct (Gemini.attempt rt userMessage currentState messageHistory) as [l r].
    cbn [snd] in Hthrown. subst r. reflexivity.
  - intros rt' um' st' h' e' H.
    destruct (processUserMessage_returns rt' um' st' h') as [r Hr].
    congruence.
Qed.

(** ** The model-backed route *)

Lemma Get_string_is_object (body : JSValue) (k s : string) :
  Get body k = Return (JString s) ->
  exists ps, body = JObject ps /\ lookup k ps = Some (JString s).
Proof.
  destruct body; cbn; try discriminate.
  intros H. exists properties. split; [reflexivity|].
  destruct (lookup k properties); [congruence | discriminate].
Qed.

(** C9.  A request to the model-backed route whose body has a non-empty
    string [userMessage] and a [currentState] that is absent or falsy is
    answered with status 400 and the error [currentState is required], and
    no call is made to the model. *)
Theorem chat_route_requires_currentState
    (rt : ChatRoute.Runtime) (requestBody : JSValue) (text : string)
    (Hmessage : Get requestBody "userMessage" = Return (JString text))
    (Hnonempty : is_empty text = false)
    (Hstate : ToBoolean (GetOpt requestBody "currentState") = false) :
  ChatRoute.POST rt {| json := Return requestBody |}
  = ([], Return {| status := 400;
                   body := ErrorBody (JString "currentState is required") |}).
Proof.
  destruct (Get_string_is_object _ _ _ Hmessage) as (ps & -> & Hps).
  cbn [GetOpt] in Hstate.
  unfold ChatRoute.POST, ChatRoute.handler, lift, bind, ret, try_catch.
  cbn [json Get]. rewrite Hps.
  unfold userMessage_rejected. cbn [ToBoolean typeof_is_string].
  rewrite Hnonempty. cbn [negb orb app].
  rewrite Hstate. reflexivity.
Qed.

(** ** The proxy route *)

Lemma proxy_rejects (rt : ProxyRoute.Runtime) (requestBody : JSValue) :
  requestBody <> JNull -> requestBody <> JUndefined ->
  missing_empty_or_not_a_string (GetOpt requestBody "userMessage") ->
  ProxyRoute.before_fetch rt {| json := Return requestBody |}
  = Return (inl userMessage_required).
Proof.
  intros Hnull Hundef Hbad.
  assert (Hrej : userMessage_rejected (GetOpt requestBody "userMessage") = true).
  { unfold userMessage_rejected.
    destruct Hbad as [-> | [-> | ->]]; [reflexivity | reflexivity | apply orb_true_r]. }
  unfold ProxyRoute.before_fetch. cbn [json Exc_bind].
  destruct requestBody; try congruence; cbn [Get GetOpt Exc_bind] in *;
    try reflexivity.
  rewrite Hrej. reflexivity.
Qed.

Lemma rejected_of_bad (v : JSValue) :
  missing_empty_or_not_a_string v -> userMessage_rejected v = true.
Proof.
  unfold userMessage_rejected.
  intros [-> | [-> | ->]]; [reflexivity | reflexivity | apply orb_true_r].
Qed.

Lemma chat_rejects (rt : ChatRoute.Runtime) (requestBody : JSValue) :
  requestBody <> JNull -> requestBody <> JUndefined ->
  missing_empty_or_not_a_string (GetOpt requestBody "userMessage") ->
  ChatRoute.handler rt {| json := Return requestBody |}
  = ([], Return userMessage_required).
Proof.
  intros Hnull Hundef Hbad. apply rejected_of_bad in Hbad.
  unfold ChatRoute.handler. cbn [json].
  destruct requestBody; try congruence; cbn [GetOpt] in Hbad; run_eff;
    cbn [Get]; try reflexivity.
  rewrite Hbad. reflexivity.
Qed.

(** C3, as the code has it.  A request whose [userMessage] is missing,
    empty or not a string is never forwarded, neither to the backend by the
    proxy route nor to the model by the model-backed route.  When its body
    was read and is not [null], the answer is status 400 with the error
    [userMessage is required and must be a string]; when the body cannot be
    read as JSON or is [null], the answer is the generic status 500.  The
    page, on an answer that is not OK, keeps its transfer state. *)
Theorem proxy_rejects_bad_userMessage
    (rt : ProxyRoute.Runtime) (chat : ChatRoute.Runtime) (request : Request)
    (Hbad : missing_empty_or_not_a_string (userMessage_of request)) :
  let answer :=
    if destructurable request
    then {| status := 400;
            body := ErrorBody
              (JString "userMessage is required and must be a string") |}
    else {| status := 500;
            body := ErrorBody (JString "Internal server error") |} in
  ProxyRoute.POST rt request = ([], Return answer)
  /\ ChatRoute.POST chat request = ([], Return answer)
  /\ forall now pending parsed page,
       Page.transferState (Page.resume now pending (Page.Responds false parsed) page)
       = Page.transferState page.
Proof.
  cbv zeta. split; [|split; [|reflexivity]].
  - destruct request as [[requestBody|e]]; [|reflexivity].
    unfold userMessage_of in Hbad. cbn [json] in Hbad.
    unfold ProxyRoute.POST, ProxyRoute.handler.
    destruct requestBody;
      try reflexivity;
      (rewrite proxy_rejects; [reflexivity | discriminate | discriminate | exact Hbad]).
  - destruct request as [[requestBody|e]]; [|reflexivity].
    unfold userMessage_of in Hbad. cbn [json] in Hbad.
    unfold ChatRoute.POST.
    destruct requestBody;
      try reflexivity;
      (rewrite chat_rejects; [reflexivity | discriminate | discriminate | exact Hbad]).
Qed.

Lemma NextResponse_json_carries (b : Body) (code : Z) :
  (200 <=? code) && (code <=? 599) && negb (code =? 304) = true ->
  (200 <=? code) && (code <=? 299) = false ->
  NextResponse_json b code = Return {| status := code; body := b |}.
Proof.
  unfold NextResponse_json, null_body_status. intros Hcarry Hnot.
  apply andb_true_iff in Hcarry as [Hrange H304].
  apply andb_true_iff in Hrange as [Hlow Hhigh].
  rewrite Hlow in Hnot. cbn [andb] in Hnot.
  apply Z.leb_le in Hlow, Hhigh. apply Z.leb_gt in Hnot.
  apply negb_true_iff in H304. rewrite H304.
  destruct (Z.ltb_spec code 200); [lia|].
  destruct (Z.ltb_spec 599 code); [lia|].
  destruct (Z.eqb_spec code 101); [lia|].
  destruct (Z.eqb_spec code 103); [lia|].
  destruct (Z.eqb_spec code 204); [lia|].
  destruct (Z.eqb_spec code 205); [lia|].
  reflexivity.
Qed.

Lemma NextResponse_json_refuses (b : Body) (code : Z) :
  (200 <=? code) && (code <=? 599) && negb (code =? 304) = false ->
  (200 <=? code) && (code <=? 299) = false ->
  exists e, NextResponse_json b code = Throw e.
Proof.
  unfold NextResponse_json, null_body_status. intros Hcarry Hnot.
  destruct (Z.ltb_spec code 200); [eexists; reflexivity|].
  destruct (Z.ltb_spec 599 code); [eexists; reflexivity|].
  cbn [orb].
  destruct (Z.leb_spec 200 code); [|lia].
  destruct (Z.leb_spec code 599); [|lia].
  destruct (Z.eqb_spec code 304) as [Heq|]; [|discriminate].
  rewrite Heq. eexists. reflexivity.
Qed.

(** C4, as the code has it.  When the backend answers a forwarded request
    with a status that is not OK and that a response with a body can carry
    (within 200 to 599 and not 304), the route answers with that status and,
    as error, the [detail] of the backend's body when it has a truthy one,
    and [Python service error] otherwise (also when the body is not JSON).
    For a status that is not OK and cannot be carried (304, or outside 200
    to 599) building the answer throws, and then, as whenever the [try]
    block of the route throws, the answer is status 500 with
    [Internal server error]. *)
Theorem proxy_surfaces_backend_failure
    (rt : ProxyRoute.Runtime) (request : Request)
    (forwarded : ProxyRoute.FetchRequest) (response : ProxyRoute.FetchResponse)
    (Hforward : ProxyRoute.before_fetch rt request = Return (inr forwarded))
    (Hanswer : ProxyRoute.fetch rt forwarded = Return response)
    (Hfailed : ProxyRoute.ok response = false) :
  let errorBody := match ProxyRoute.response_json response with
                   | Return v => v
                   | Throw _ => JObject []
                   end in
  let code := ProxyRoute.response_status response in
  ProxyRoute.POST rt request
  = ([forwarded],
     Return (if (200 <=? code) && (code <=? 599) && negb (code =? 304)
             then {| status := code;
                     body := ErrorBody
                       (if ToBoolean (GetOpt errorBody "detail")
                        then GetOpt errorBody "detail"
                        else JString "Python service error") |}
             else {| status := 500;
                     body := ErrorBody (JString "Internal server error") |}))
  /\ forall rt' request' e,
       snd (ProxyRoute.handler rt' request') = Throw e ->
       snd (ProxyRoute.POST rt' request')
       = Return {| status := 500;
                   body := ErrorBody (JString "Internal server error") |}.
Proof.
  cbv zeta. split.
  - unfold ProxyRoute.POST, ProxyRoute.handler.
    rewrite Hforward. run_eff. rewrite Hanswer.
    unfold ProxyRoute.after_fetch. rewrite Hfailed. cbn [negb].
    destruct ((200 <=? ProxyRoute.response_status response)
              && (ProxyRoute.response_status response <=? 599)
              && negb (ProxyRoute.response_status response =? 304)) eqn:Hcarry.
    + rewrite (NextResponse_json_carries _ _ Hcarry Hfailed). reflexivity.
    + destruct (NextResponse_json_refuses
                  (ErrorBody (ProxyRoute.error_detail response))
                  (ProxyRoute.response_status response) Hcarry Hfailed) as [e ->].
      reflexivity.
  - intros rt' request' e H.
    unfold ProxyRoute.POST, try_catch.
    destruct (ProxyRoute.handler rt' request') as [l r].
    cbn [snd] in H. subst r. reflexivity.
Qed.

(** ** The page *)

Lemma reachable_run (loaded : Date) (evs : list Page.Event) (page : Page.Home) :
  Page.reachable loaded page -> Page.reachable loaded (Page.run loaded evs page).
Proof.
  revert page. induction evs as [|ev evs IH]; intros page H; [exact H|].
  cbn [Page.run]. apply IH. apply Page.reachable_step. exact H.
Qed.

(** A call is in flight exactly while the loading flag is set. *)
Lemma in_flight_tracks_loading (loaded : Date) (page : Page.Home) :
  Page.reachable loaded page ->
  List.length (Page.in_flight page) = Nat.b2n (Page.isLoading page).
Proof.
  induction 1 as [wd e | ev page Hreach IH]; [reflexivity|].
  destruct ev as [text | now | which o now | e | | ]; cbn [Page.step]; try exact IH.
  - unfold Page.handleSendMessage.
    destruct (is_empty _ || Page.isLoading page) eqn:Hguard; [exact IH|].
    apply orb_false_elim in Hguard as [_ Hload].
    rewrite Hload in IH.
    cbn [Page.in_flight Page.isLoading].
    rewrite length_app, IH. reflexivity.
  - destruct (nth_error (Page.in_flight page) which) as [p|] eqn:Hnth; [|exact IH].
    cbn [Page.in_flight Page.isLoading].
    assert (Hfalse : Page.isLoading (Page.resume now p o page) = false).
    { unfold Page.resume. destruct (Page.accept _ _ _) as [[m st]|err]; reflexivity. }
    rewrite Hfalse.
    destruct (Page.in_flight page) as [|q [|q' l]].
    + destruct which; discriminate.
    + destruct which as [|[|w]]; [reflexivity | discriminate | discriminate].
    + destruct (Page.isLoading page); discriminate.
Qed.

(** C8.  In every state the page can reach, at most one request is in
    flight; and while the loading flag is set, sending leaves the page as it
    is: no message is appended and no request is issued. *)
Theorem send_is_blocked_while_loading
    (loaded : Date) (page : Page.Home)
    (Hreach : Page.reachable loaded page) :
  (List.length (Page.in_flight page) <= 1)%nat
  /\ (Page.isLoading page = true ->
      forall now,
        Page.step loaded (Page.Submit now) page = page
        /\ Page.messages (Page.handleSendMessage now page) = Page.messages page
        /\ Page.in_flight (Page.handleSendMessage now page) = Page.in_flight page).
Proof.
  split.
  - rewrite (in_flight_tracks_loading loaded page Hreach).
    destruct (Page.isLoading page); cbn; lia.
  - intros Hload now. cbn [Page.step]. unfold Page.handleSendMessage.
    rewrite Hload, orb_true_r. repeat split.
Qed.

(** ** Reset *)

Lemma resume_keeps_session (now : Z) (p : Page.Pending) (o : Page.Outcome)
    (page : Page.Home) :
  Page.sessionId (Page.resume now p o page) = Page.sessionId page.
Proof.
  unfold Page.resume. destruct (Page.accept _ _ _) as [[m st]|err]; reflexivity.
Qed.





(** ** The completion flag *)

Lemma Forall_remove_nth (A : Type) (P : A -> Prop) (n : nat) (l : list A) :
  Forall P l -> Forall P (Page.remove_nth n l).
Proof.
  intros H. revert n.
  induction H as [|a l Ha Hl IH]; intros [|n]; cbn; auto.
Qed.

Lemma step_keeps_ruled (loaded : Date) (ev : Page.Event) (page : Page.Home) :
  carries_ruled_state ev -> ruled page -> ruled (Page.step loaded ev page).
Proof.
  intros Hev [Hst Hfl].
  destruct ev as [text | now | which o now | e | | ]; cbn [Page.step];
    try (split; assumption).
  - unfold Page.handleSendMessage.
    destruct (is_empty _ || Page.isLoading page); [split; assumption|].
    split; cbn [Page.transferState Page.in_flight]; [assumption|].
    apply Forall_app. split; [assumption|].
    constructor; [exact Hst | constructor].
  - destruct (nth_error (Page.in_flight page) which) as [p|] eqn:Hnth;
      [|split; assumption].
    assert (Hp : completion_rule (Page.captured_transferState p)).
    { rewrite Forall_forall in Hfl. apply Hfl. eapply nth_error_In. exact Hnth. }
    split; cbn [Page.transferState Page.in_flight];
      [|apply Forall_remove_nth; exact Hfl].
    unfold Page.resume, Page.accept.
    destruct o as [|[|] [data|err]]; try exact Hst.
    destruct (Page.agentResponse data) as [text|]; [|exact Hst].
    destruct (is_empty text); [exact Hst|].
    cbn [Page.transferState]. cbn in Hev.
    destruct (Page.updatedState data); [exact Hev | exact Hp].
  - split; [reflexivity | exact Hfl].
Qed.

(** C1, as the code has it.  The local code neither computes nor checks
    the completion flag.  The initial state obeys the rule (flag set exactly
    when the four fields are non-null and the name has two tokens), and the
    page only ever holds the initial state or a state a response carried;
    so the rule holds in every state of the page provided it holds of every
    state the server returns. *)
Theorem completion_rule_is_inherited
    (loaded : Date) (window_defined : bool) (e : Page.Entropy)
    (evs : list Page.Event)
    (Hserver : Forall carries_ruled_state evs) :
  completion_rule
    (Page.transferState (Page.run loaded evs (Page.initial loaded window_defined e))).
Proof.
  assert (Hgen : forall page, ruled page -> ruled (Page.run loaded evs page)).
  { induction Hserver as [|ev evs Hev Hevs IH]; intros page Hp; [exact Hp|].
    cbn [Page.run]. apply IH. apply step_keeps_ruled; assumption. }
  apply Hgen. split; [reflexivity | constructor].
Qed.

(** ** A late answer after a reset *)

(** A failed exchange appends the error message and keeps the state. *)
Lemma resume_on_failure_keeps_state
    (now : Z) (p : Page.Pending) (o : Page.Outcome) (page : Page.Home) (err : Thrown) :
  Page.accept now (Page.captured_transferState p) o = Throw err ->
  Page.transferState (Page.resume now p o page) = Page.transferState page
  /\ exists errorMsg,
       Page.messages (Page.resume now p o page) = (Page.messages page ++ [errorMsg])%list
       /\ Message.content errorMsg = Page.connection_trouble.
Proof.
  intros H. unfold Page.resume. rewrite H. split; [reflexivity|].
  eexists. split; reflexivity.
Qed.

(** An answer without state keeps the state the page had when the message
    was sent. *)
Lemma answer_without_state_restores_captured
    (now : Z) (p : Page.Pending) (text : string) (pr : option PromoData)
    (page : Page.Home) :
  is_empty text = false ->
  Page.transferState
    (Page.resume now p
       (Page.Responds true
          (Return {| Page.agentResponse := Some text;
                     Page.updatedState := None;
                     Page.promo := pr |}))
       page)
  = Page.captured_transferState p.
Proof.
  intros H. unfold Page.resume, Page.accept.
  cbn [Page.agentResponse Page.updatedState]. rewrite H. reflexivity.
Qed.

(** ** Instances *)

Example split_keeps_empty_ends :
  map string_of_list_ascii (split_ws is_space false (list_ascii_of_string " a  b "))
  = [EmptyString; "a"; "b"; EmptyString].
Proof. reflexivity. Qed.

Example split_of_blank_name :
  map string_of_list_ascii
      (split_ws is_space false (trim is_space (list_ascii_of_string "   ")))
  = [EmptyString].
Proof. reflexivity. Qed.

Example full_name_has_two_tokens :
  map string_of_list_ascii (tokens is_space (list_ascii_of_string "  Maria   Silva "))
  = ["Maria"; "Silva"]
  /\ StatePanel.isWarning "  Maria   Silva " = false
  /\ StatePanel.isWarning "Maria" = true.
Proof. repeat split. Qed.

Example slice_keeps_ten_of_twelve :
  slice (-10) [1; 2; 3; 4; 5; 6; 7; 8; 9; 10; 11; 12]
  = [3; 4; 5; 6; 7; 8; 9; 10; 11; 12]
  /\ slice (-10) [1; 2; 3] = [1; 2; 3].
Proof. split; reflexivity. Qed.

Example quote_escapes :
  Gemini.quote (String (ascii_of_nat 34) (String (ascii_of_nat 10) "a"))
  = dquote ++ backslash ++ dquote ++ backslash ++ "n" ++ "a" ++ dquote.
Proof. reflexivity. Qed.

Example unreachable_backend_is_500 :
  ProxyRoute.POST Sample.unreachable_backend Sample.hello_request
  = ([{| ProxyRoute.url := "http://localhost:8000/api/chat";
         ProxyRoute.session_id := Some (JString "s-1");
         ProxyRoute.method := "POST";
         ProxyRoute.content_type := "application/json";
         ProxyRoute.payload := JObject [("userMessage", JString "hello");
                                        ("messageHistory", JArray [])] |}],
     Return {| status := 500;
               body := ErrorBody (JString "Internal server error") |}).
Proof. reflexivity. Qed.

Lemma progress_of_two_slots :
  (StatePanel.percentage Sample.to_brazil == 50)%Q.
Proof. reflexivity. Qed.

Lemma prompt_carries_last_ten_messages_witness :
  exists older recent : list Message,
    [Page.INITIAL_MESSAGE Sample.loaded_at] = (older ++ recent)%list /\
    List.length recent = 1%nat /\
    map Gemini.contents
        (fst (Gemini.processUserMessage Sample.silent_service "hi" Page.INITIAL_STATE
                [Page.INITIAL_MESSAGE Sample.loaded_at]))
    = [Gemini.prompt "hi" Page.INITIAL_STATE [Page.INITIAL_MESSAGE Sample.loaded_at]].
Proof.
  destruct (prompt_carries_last_ten_messages Sample.silent_service "k-123" "hi"
              Page.INITIAL_STATE [Page.INITIAL_MESSAGE Sample.loaded_at]
              eq_refl eq_refl)
    as (older & recent & Hsplit & Hlen & _ & _ & Hcall).
  exists older, recent. split; [exact Hsplit|]. split; [exact Hlen | exact Hcall].
Defined.

Lemma processUserMessage_falls_back_witness :
  snd (Gemini.processUserMessage Sample.keyless_service "hi" Sample.to_brazil [])
  = Return {| AgentResponse.agentResponse := Gemini.apology;
              AgentResponse.updatedState := Sample.to_brazil;
              AgentResponse.promo := None |}.
Proof.
  apply (processUserMessage_falls_back Sample.keyless_service "hi" Sample.to_brazil []).
  left. reflexivity.
Defined.

Lemma chat_route_requires_currentState_witness :
  ChatRoute.POST Sample.chat_runtime
    {| json := Return (JObject [("userMessage", JString "hello");
                                ("currentState", JNull)]) |}
  = ([], Return {| status := 400;
                   body := ErrorBody (JString "currentState is required") |}).
Proof.
  apply (chat_route_requires_currentState Sample.chat_runtime _ "hello");
    reflexivity.
Defined.

Lemma proxy_rejects_bad_userMessage_witness :
  ProxyRoute.POST Sample.refusing_backend
    {| json := Return (JObject [("userMessage", JString EmptyString)]) |}
  = ([], Return {| status := 400;
                   body := ErrorBody
                     (JString "userMessage is required and must be a string") |}).
Proof.
  apply (proxy_rejects_bad_userMessage Sample.refusing_backend Sample.chat_runtime
           {| json := Return (JObject [("userMessage", JString EmptyString)]) |}).
  right. left. reflexivity.
Defined.

Lemma proxy_surfaces_backend_failure_witness :
  ProxyRoute.POST Sample.refusing_backend Sample.hello_request
  = ([Sample.hello_forwarded],
     Return {| status := 422; body := ErrorBody (JString "Unprocessable") |}).
Proof.
  apply (proxy_surfaces_backend_failure Sample.refusing_backend Sample.hello_request
           Sample.hello_forwarded
           {| ProxyRoute.response_status := 422;
              ProxyRoute.response_json :=
                Return (JObject [("detail", JString "Unprocessable")]) |});
    reflexivity.
Defined.

Lemma send_is_blocked_while_loading_witness :
  Page.isLoading Sample.waiting_page = true
  /\ (List.length (Page.in_flight Sample.waiting_page) <= 1)%nat
  /\ Page.step Sample.loaded_at (Page.Submit 1700000001500) Sample.waiting_page
     = Sample.waiting_page.
Proof.
  split; [reflexivity|].
  destruct (send_is_blocked_while_loading Sample.loaded_at Sample.waiting_page)
    as [Hone Hblocked].
  - unfold Sample.waiting_page.
    apply Page.reachable_step, Page.reachable_step.
    apply Page.reachable_initial.
  - split; [exact Hone|].
    apply (Hblocked eq_refl 1700000001500).
Defined.

Lemma completion_rule_is_inherited_witness :
  completion_rule
    (Page.transferState
       (Page.run Sample.loaded_at Sample.ruly_exchange Sample.fresh_page)).
Proof.
  apply (completion_rule_is_inherited Sample.loaded_at true Sample.browser
           Sample.ruly_exchange).
  repeat constructor.
Defined.

(** ** Where the code departs from the specification *)

(** C1, as stated, fails: after an exchange whose answer carries a state
    with the flag set and no field filled, the page holds that state. *)
Lemma completion_flag_is_not_checked :
  Page.reachable Sample.loaded_at
    (Page.run Sample.loaded_at Sample.unruly_exchange Sample.fresh_page)
  /\ ~ completion_rule
        (Page.transferState
           (Page.run Sample.loaded_at Sample.unruly_exchange Sample.fresh_page)).
Proof.
  split.
  - apply reachable_run. apply Page.reachable_initial.
  - unfold completion_rule. vm_compute. discriminate.
Qed.

(** C3, as stated, fails: a request whose body is the JSON value [null] has
    no [userMessage], and is answered with status 500, not 400. *)
Lemma null_body_is_not_answered_400 :
  ~ (missing_empty_or_not_a_string (userMessage_of Sample.null_request) ->
     answered_400 Sample.unreachable_backend Sample.null_request).
Proof.
  intros H.
  destruct H as (answer & Heq & Hstatus); [left; reflexivity|].
  vm_compute in Heq. injection Heq as <-. discriminate.
Qed.

(** C10 fails on the code: the user resets the page while a request is in
    flight; the answer, which carries no state, then puts back the state the
    page had when the message was sent, instead of leaving the reset state
    in place. *)
Lemma late_answer_undoes_reset :
  let before := Page.run Sample.loaded_at Sample.reset_while_waiting Sample.fresh_page in
  let after :=
    Page.step Sample.loaded_at
      (Page.Settle 0 (Sample.answer "Noted." None) 1700000005000) before in
  Page.reachable Sample.loaded_at before
  /\ Page.transferState before = Page.INITIAL_STATE
  /\ Page.transferState after = Sample.to_brazil
  /\ Page.transferState after <> Page.transferState before.
Proof.
  cbv zeta. split; [apply reachable_run, Page.reachable_initial|].
  split; [reflexivity|]. split; [reflexivity|].
  vm_compute. discriminate.
Qed.


(* ================================================================== *)
(** * Further properties of the code *)
(* ================================================================== *)

(** ** Trimming *)

Section TrimFacts.
Context {char : Type} (is_ws : char -> bool).

Lemma trimStart_blank (l : list char) :
  forallb is_ws l = true -> trimStart is_ws l = [].
Proof.
  induction l as [|c l IH]; cbn; [reflexivity|].
  destruct (is_ws c); [exact IH | discriminate].
Qed.

Lemma trimStart_keeps_blankness (l : list char) :
  forallb is_ws (trimStart is_ws l) = forallb is_ws l.
Proof.
  induction l as [|c l IH]; cbn; [reflexivity|].
  destruct (is_ws c) eqn:Hc; [exact IH|].
  cbn. rewrite Hc. reflexivity.
Qed.

Lemma trimEnd_nil_iff (l : list char) :
  trimEnd is_ws l = [] <-> forallb is_ws l = true.
Proof.
  induction l as [|c l IH]; cbn; [tauto|].
  destruct (trimEnd is_ws l) as [|d r].
  - destruct (is_ws c); cbn.
    + split; [intros _; apply IH; reflexivity | reflexivity].
    + split; discriminate.
  - split; [discriminate|].
    intros H. apply andb_true_iff in H as [_ H].
    apply IH in H. discriminate.
Qed.

Lemma trim_nil_iff (l : list char) :
  trim is_ws l = [] <-> forallb is_ws l = true.
Proof.
  unfold trim. rewrite trimEnd_nil_iff, trimStart_keeps_blankness. tauto.
Qed.

Lemma trim_idempotent (l : list char) :
  trim is_ws (trim is_ws l) = trim is_ws l.
Proof.
  destruct (trim_head is_ws l) as [H | (c & r & H & Hc)].
  - rewrite H. reflexivity.
  - assert (Hfix : trimEnd is_ws (trim is_ws l) = trim is_ws l)
      by (unfold trim; apply trimEnd_idempotent).
    rewrite H in *. unfold trim at 1. cbn [trimStart]. rewrite Hc. exact Hfix.
Qed.
End TrimFacts.

Lemma is_empty_string_of_list (l : list ascii) :
  is_empty (string_of_list_ascii l) = match l with [] => true | _ => false end.
Proof. destruct l; reflexivity. Qed.

Lemma js_trim_blank (s : string) :
  is_empty (Page.js_trim s) = forallb is_space (list_ascii_of_string s).
Proof.
  unfold Page.js_trim. rewrite is_empty_string_of_list.
  destruct (trim is_space (list_ascii_of_string s)) as [|c r] eqn:Ht.
  - symmetry. apply trim_nil_iff. exact Ht.
  - destruct (forallb is_space (list_ascii_of_string s)) eqn:Hb; [|reflexivity].
    apply trim_nil_iff in Hb. congruence.
Qed.

Lemma js_trim_idempotent (s : string) :
  Page.js_trim (Page.js_trim s) = Page.js_trim s.
Proof.
  unfold Page.js_trim.
  rewrite list_ascii_of_string_of_list_ascii, trim_idempotent. reflexivity.
Qed.

(** ** Sending *)

(** X1.  [handleSendMessage] does nothing at all, neither a message nor a
    request nor a change of the input, exactly when the input consists of
    white space only (the empty input included) or a request is
    outstanding. *)
Theorem send_does_nothing_iff_blank_or_loading (now : Z) (page : Page.Home) :
  Page.handleSendMessage now page = page
  <-> (forallb is_space (list_ascii_of_string (Page.inputValue page)) = true
       \/ Page.isLoading page = true).
Proof.
  unfold Page.handleSendMessage. rewrite js_trim_blank.
  destruct (forallb is_space _) eqn:Hb; cbn [orb].
  - split; [intros _; left; reflexivity | reflexivity].
  - destruct (Page.isLoading page) eqn:Hl.
    + split; [intros _; right; reflexivity | reflexivity].
    + split; [|intros [H|H]; discriminate].
      intros H. apply (f_equal Page.isLoading) in H.
      cbn [Page.isLoading] in H. congruence.
Qed.

(** ** The session identifier and the requests in flight *)

Lemma new_session_id_nonempty (e : Page.Entropy) :
  is_empty (Page.new_session_id e) = false.
Proof.
  unfold Page.new_session_id.
  destruct (Page.randomUUID e) as [u|]; [|reflexivity].
  destruct (is_empty u) eqn:Hu; [reflexivity | exact Hu].
Qed.

Lemma reachable_session_nonempty (loaded : Date) (page : Page.Home) :
  Page.reachable loaded page -> is_empty (Page.sessionId page) = false.
Proof.
  induction 1 as [wd e | ev page Hreach IH].
  - cbn. destruct wd; [apply new_session_id_nonempty | reflexivity].
  - destruct ev as [text | now | which o now | e | | ]; cbn [Page.step];
      try exact IH.
    + unfold Page.handleSendMessage.
      destruct (is_empty _ || Page.isLoading page); exact IH.
    + destruct (nth_error (Page.in_flight page) which) as [p|]; [|exact IH].
      cbn [Page.sessionId]. rewrite resume_keeps_session. exact IH.
    + apply new_session_id_nonempty.
Qed.

Lemma reachable_requests_well_formed (loaded : Date) (page : Page.Home) :
  Page.reachable loaded page ->
  Forall (fun p => request_well_formed (Page.sent p)) (Page.in_flight page).
Proof.
  induction 1 as [wd e | ev page Hreach IH]; [constructor|].
  destruct ev as [text | now | which o now | e | | ]; cbn [Page.step];
    try exact IH.
  - unfold Page.handleSendMessage.
    destruct (is_empty _ || Page.isLoading page) eqn:Hguard; [exact IH|].
    apply orb_false_elim in Hguard as [Hblank _].
    cbn [Page.in_flight]. apply Forall_app. split; [exact IH|].
    constructor; [|constructor].
    unfold request_well_formed. cbn.
    split; [exact Hblank|]. split; [apply js_trim_idempotent|].
    split; [apply (reachable_session_nonempty loaded); exact Hreach|].
    eexists _, _. split; [reflexivity|]. repeat split.
  - destruct (nth_error (Page.in_flight page) which) as [p|]; [|exact IH].
    cbn [Page.in_flight]. apply Forall_remove_nth. exact IH.
Qed.

(** X2.  In every state the page can reach, at load, after resets and
    while requests are in flight, the session identifier is not empty, and
    every request in flight is well formed: its text is non-empty and
    trimmed, its session identifier is non-empty, and its history ends with
    the user's message carrying that text. *)
Theorem page_requests_are_well_formed
    (loaded : Date) (page : Page.Home)
    (Hreach : Page.reachable loaded page) :
  is_empty (Page.sessionId page) = false
  /\ forall p, In p (Page.in_flight page) -> request_well_formed (Page.sent p).
Proof.
  split; [apply (reachable_session_nonempty loaded); exact Hreach|].
  apply Forall_forall.
  apply (reachable_requests_well_formed loaded). exact Hreach.
Qed.

(** ** The page's requests at the proxy route *)

Lemma normalize_wire_message (iso : Date -> string) (m : Message) :
  exists m', normalize_message (Wire.of_message iso m) = Return m'.
Proof.
  unfold normalize_message, Wire.of_message. cbn [Get Exc_bind app lookup].
  change (String.eqb "timestamp" "id") with false.
  change (String.eqb "timestamp" "role") with false.
  change (String.eqb "timestamp" "content") with false.
  change (String.eqb "timestamp" "timestamp") with true.
  cbv iota. cbn [new_Date unconvertible Exc_bind]. eexists. reflexivity.
Qed.

Lemma normalize_wire_messages (iso : Date -> string) (ms : list Message) :
  exists normalized,
    Exc_map normalize_message (map (Wire.of_message iso) ms) = Return normalized
    /\ List.length normalized = List.length ms.
Proof.
  induction ms as [|m ms (normalized & IH & Hlen)].
  - exists []. split; reflexivity.
  - cbn [map Exc_map].
    destruct (normalize_wire_message iso m) as [m' ->].
    rewrite IH. cbn [Exc_bind].
    eexists. split; [reflexivity|]. cbn. rewrite Hlen. reflexivity.
Qed.

(** X3.  The proxy route never rejects a request of the page: for every
    request in flight in a reachable state, serialised as the page posts it,
    the route's validation and normalisation succeed and (when the
    configured backend URL parses) the request to forward carries the same
    text, a history of the same length, and the session identifier as
    [session_id] query parameter. *)
Theorem page_requests_pass_the_proxy
    (loaded : Date) (page : Page.Home) (p : Page.Pending)
    (iso : Date -> string) (rt : ProxyRoute.Runtime)
    (Hreach : Page.reachable loaded page)
    (Hin : In p (Page.in_flight page))
    (Hurl : ProxyRoute.URL_accepts rt
              (ProxyRoute.strip_trailing_slash (ProxyRoute.PYTHON_SERVICE_URL rt)
               ++ "/api/chat") = true) :
  exists normalized,
    ProxyRoute.before_fetch rt (Wire.of_request iso (Page.sent p))
    = Return (inr
        {| ProxyRoute.url :=
             ProxyRoute.strip_trailing_slash (ProxyRoute.PYTHON_SERVICE_URL rt)
             ++ "/api/chat";
           ProxyRoute.session_id :=
             Some (JString (Page.ChatRequest.sessionId (Page.sent p)));
           ProxyRoute.method := "POST";
           ProxyRoute.content_type := "application/json";
           ProxyRoute.payload :=
             JObject [("userMessage",
                        JString (Page.ChatRequest.userMessage (Page.sent p)));
                      ("messageHistory", JArray normalized)] |})
    /\ List.length normalized
       = List.length (Page.ChatRequest.messageHistory (Page.sent p)).
Proof.
  pose proof (reachable_requests_well_formed loaded page Hreach) as Hwf.
  rewrite Forall_forall in Hwf.
  destruct (Hwf p Hin) as (Htext & _ & Hsid & _).
  destruct (normalize_wire_messages iso
              (Page.ChatRequest.messageHistory (Page.sent p)))
    as (normalized & Hnorm & Hlen).
  exists normalized. split; [|exact Hlen].
  unfold ProxyRoute.before_fetch, Wire.of_request.
  cbn [json Exc_bind Get lookup].
  change (String.eqb "userMessage" "userMessage") with true.
  change (String.eqb "messageHistory" "userMessage") with false.
  change (String.eqb "messageHistory" "messageHistory") with true.
  change (String.eqb "sessionId" "userMessage") with false.
  change (String.eqb "sessionId" "messageHistory") with false.
  change (String.eqb "sessionId" "sessionId") with true.
  cbv iota. cbn [Exc_bind].
  unfold userMessage_rejected. cbn [ToBoolean typeof_is_string].
  rewrite Htext, Hsid. cbn [negb orb].
  unfold normalize_history, or_else. cbn [ToBoolean].
  rewrite Hnorm. cbn [Exc_bind]. rewrite Hurl. reflexivity.
Qed.

(** ** The message list *)

Lemma resume_appends_one (now : Z) (p : Page.Pending) (o : Page.Outcome)
    (page : Page.Home) :
  exists m,
    Page.messages (Page.resume now p o page) = (Page.messages page ++ [m])%list
    /\ Message.role m = agent
    /\ (accepted_answer o = false ->
        Message.content m = Page.connection_trouble
        /\ Message.promo m = None
        /\ Page.transferState (Page.resume now p o page) = Page.transferState page).
Proof.
  unfold Page.resume, Page.accept, accepted_answer.
  destruct o as [|[|] [data|err]];
    try (eexists; split; [reflexivity|]; split; [reflexivity|];
         intros _; repeat split).
  destruct (Page.agentResponse data) as [text|];
    [destruct (is_empty text)|];
    eexists; (split; [reflexivity|]); (split; [reflexivity|]);
    cbn [negb]; intros H; try discriminate; repeat split.
Qed.

Lemma messages_append_or_same (loaded : Date) (ev : Page.Event) (page : Page.Home) :
  is_reset ev = false ->
  exists added,
    Page.messages (Page.step loaded ev page) = (Page.messages page ++ added)%list.
Proof.
  intros Hkeep.
  destruct ev as [text | now | which o now | e | | ]; cbn [Page.step];
    try discriminate;
    try (exists []; rewrite app_nil_r; reflexivity).
  - unfold Page.handleSendMessage.
    destruct (is_empty _ || Page.isLoading page).
    + exists []. rewrite app_nil_r. reflexivity.
    + eexists [_]. reflexivity.
  - destruct (nth_error (Page.in_flight page) which) as [p|].
    + cbn [Page.messages].
      destruct (resume_appends_one now p o page) as (m & Hm & _).
      exists [m]. exact Hm.
    + exists []. rewrite app_nil_r. reflexivity.
Qed.

(** X4.  The message list is append-only: every event other than a reset
    leaves the messages already shown in place, in order, and adds at most
    one message at the end. *)
Theorem messages_are_append_only
    (loaded : Date) (ev : Page.Event) (page : Page.Home)
    (Hkeep : is_reset ev = false) :
  exists added,
    Page.messages (Page.step loaded ev page) = (Page.messages page ++ added)%list
    /\ (List.length added <= 1)%nat.
Proof.
  destruct ev as [text | now | which o now | e | | ]; cbn [Page.step];
    try discriminate;
    try (exists []; rewrite app_nil_r; split; [reflexivity | cbn; lia]).
  - unfold Page.handleSendMessage.
    destruct (is_empty _ || Page.isLoading page).
    + exists []. rewrite app_nil_r. split; [reflexivity | cbn; lia].
    + eexists [_]. split; [reflexivity | cbn; lia].
  - destruct (nth_error (Page.in_flight page) which) as [p|].
    + cbn [Page.messages].
      destruct (resume_appends_one now p o page) as (m & Hm & _).
      exists [m]. split; [exact Hm | cbn; lia].
    + exists []. rewrite app_nil_r. split; [reflexivity | cbn; lia].
Qed.

(** X5.  In every state the page can reach, the message list begins with
    the greeting; in particular it is never empty. *)
Theorem greeting_is_always_first
    (loaded : Date) (page : Page.Home)
    (Hreach : Page.reachable loaded page) :
  exists rest, Page.messages page = Page.INITIAL_MESSAGE loaded :: rest.
Proof.
  induction Hreach as [wd e | ev page Hreach [rest IH]].
  - exists []. reflexivity.
  - destruct (is_reset ev) eqn:Hev.
    + destruct ev; try discriminate. exists []. reflexivity.
    + destruct (messages_append_or_same loaded ev page Hev) as (added & Hadd).
      exists (rest ++ added)%list. rewrite Hadd, IH. reflexivity.
Qed.

(** ** The transfer state *)

(** X6.  The transfer state is touched by two events only, a reset and
    the arrival of an accepted answer: typing, sending, opening the menu,
    and every failed exchange (rejected fetch, status that is not OK, body
    that does not parse, missing or empty [agentResponse]) leave it as it
    is. *)
Theorem transfer_state_is_framed
    (loaded : Date) (ev : Page.Event) (page : Page.Home)
    (Hquiet : sets_transfer_state ev = false) :
  Page.transferState (Page.step loaded ev page) = Page.transferState page.
Proof.
  destruct ev as [text | now | which o now | e | | ]; cbn [Page.step];
    try reflexivity; try discriminate.
  - unfold Page.handleSendMessage.
    destruct (is_empty _ || Page.isLoading page); reflexivity.
  - cbn [sets_transfer_state] in Hquiet.
    destruct (nth_error (Page.in_flight page) which) as [p|]; [|reflexivity].
    cbn [Page.transferState].
    destruct (resume_appends_one now p o page) as (m & _ & _ & H).
    apply H. exact Hquiet.
Qed.

Lemma at_most_one_in_flight (loaded : Date) (page : Page.Home) :
  Page.reachable loaded page -> (List.length (Page.in_flight page) <= 1)%nat.
Proof.
  intros H. rewrite (in_flight_tracks_loading loaded page H).
  destruct (Page.isLoading page); cbn; lia.
Qed.

Lemma remove_only_one (A : Type) (which : nat) (l : list A) (a : A) :
  (List.length l <= 1)%nat -> nth_error l which = Some a ->
  Page.remove_nth which l = [] /\ l = [a].
Proof.
  destruct l as [|b [|c l]]; cbn; intros Hlen Hnth.
  - destruct which; discriminate.
  - destruct which as [|w]; cbn in Hnth; [|destruct w; discriminate].
    split; [reflexivity | congruence].
  - lia.
Qed.

(** As long as no reset occurs, a suspended call has captured the transfer
    state the page still has. *)
Lemma captured_state_is_current (loaded : Date) (evs : list Page.Event)
    (page : Page.Home) :
  forallb (fun ev => negb (is_reset ev)) evs = true ->
  Page.reachable loaded page ->
  Forall (fun p => Page.captured_transferState p = Page.transferState page)
         (Page.in_flight page) ->
  Forall (fun p => Page.captured_transferState p
                   = Page.transferState (Page.run loaded evs page))
         (Page.in_flight (Page.run loaded evs page)).
Proof.
  revert page. induction evs as [|ev evs IH]; intros page Hevs Hreach Hcap;
    [exact Hcap|].
  cbn [forallb] in Hevs. apply andb_true_iff in Hevs as [Hev Hevs].
  cbn [Page.run]. apply IH; [exact Hevs | apply Page.reachable_step; exact Hreach |].
  destruct ev as [text | now | which o now | e | | ]; cbn [Page.step];
    try exact Hcap; try discriminate.
  - unfold Page.handleSendMessage.
    destruct (is_empty _ || Page.isLoading page); [exact Hcap|].
    cbn [Page.in_flight Page.transferState].
    apply Forall_app. split; [exact Hcap|]. constructor; [reflexivity | constructor].
  - destruct (nth_error (Page.in_flight page) which) as [p|] eqn:Hnth; [|exact Hcap].
    cbn [Page.in_flight Page.transferState].
    destruct (remove_only_one _ which _ p (at_most_one_in_flight loaded page Hreach) Hnth)
      as [-> _].
    constructor.
Qed.

(** X7.  As long as the user does not reset the page while a request is
    outstanding (here: the trace has no reset at all), an accepted answer
    that carries no [updatedState] leaves the transfer state as it is. *)
Theorem answer_without_state_is_neutral_without_reset
    (loaded : Date) (window_defined : bool) (e : Page.Entropy)
    (evs : list Page.Event) (which : nat) (now : Z)
    (text : string) (card : option PromoData)
    (Hevs : forallb (fun ev => negb (is_reset ev)) evs = true)
    (Htext : is_empty text = false) :
  let page := Page.run loaded evs (Page.initial loaded window_defined e) in
  Page.transferState
    (Page.step loaded
       (Page.Settle which
          (Page.Responds true
             (Return {| Page.agentResponse := Some text;
                        Page.updatedState := None;
                        Page.promo := card |}))
          now)
       page)
  = Page.transferState page.
Proof.
  cbv zeta.
  pose proof (captured_state_is_current loaded evs
                (Page.initial loaded window_defined e) Hevs
                (Page.reachable_initial loaded window_defined e)
                (Forall_nil _)) as Hcap.
  cbn [Page.step].
  destruct (nth_error (Page.in_flight _) which) as [p|] eqn:Hnth; [|reflexivity].
  cbn [Page.transferState].
  rewrite answer_without_state_restores_captured by exact Htext.
  rewrite Forall_forall in Hcap. apply Hcap.
  eapply nth_error_In. exact Hnth.
Qed.

(** X8.  Whatever the outcome of the outstanding request (rejection,
    status that is not OK, unreadable body, missing text, or an accepted
    answer), when it arrives the page appends exactly one agent message,
    stops loading and has no request left in flight, so the user can send
    again; if the answer was not accepted, the message is the fixed
    connection-trouble text and the transfer state is unchanged. *)
Theorem every_outcome_ends_loading
    (loaded : Date) (page : Page.Home) (o : Page.Outcome) (now : Z)
    (Hreach : Page.reachable loaded page)
    (Hload : Page.isLoading page = true) :
  let after := Page.step loaded (Page.Settle 0 o now) page in
  Page.isLoading after = false
  /\ Page.in_flight after = []
  /\ exists m,
       Page.messages after = (Page.messages page ++ [m])%list
       /\ Message.role m = agent
       /\ (accepted_answer o = false ->
           Message.content m
           = "I'm having trouble connecting right now. Please try again in a moment."
           /\ Page.transferState after = Page.transferState page).
Proof.
  cbv zeta.
  pose proof (in_flight_tracks_loading loaded page Hreach) as Hone.
  rewrite Hload in Hone. cbn [Page.step].
  destruct (Page.in_flight page) as [|p [|q l]] eqn:Hfl; try discriminate.
  cbn [nth_error Page.isLoading Page.in_flight Page.messages Page.transferState
       Page.remove_nth].
  split; [|split; [reflexivity|]].
  - unfold Page.resume. destruct (Page.accept _ _ _) as [[m st]|err]; reflexivity.
  - destruct (resume_appends_one now p o page) as (m & Hm & Hrole & Hfail).
    exists m. split; [exact Hm|]. split; [exact Hrole|].
    intros Hno. destruct (Hfail Hno) as (Hc & _ & Hst). split; assumption.
Qed.

(** ** Promo cards *)

(** X9.  In every state the page can reach, a message carries a promo only
    if it is an agent message, so the chat bubble's test
    [isAgent && message.promo] draws the card for every message that has
    one; the user's own messages never have one. *)
Theorem promo_only_on_agent_messages
    (loaded : Date) (page : Page.Home)
    (Hreach : Page.reachable loaded page) :
  forall m, In m (Page.messages page) ->
    ChatBubble.shows_promo_card m
    = match Message.promo m with Some _ => true | None => false end
    /\ (Message.role m = user -> Message.promo m = None).
Proof.
  assert (Hone : forall m,
             (Message.promo m <> None -> Message.role m = agent) ->
             ChatBubble.shows_promo_card m
             = match Message.promo m with Some _ => true | None => false end
             /\ (Message.role m = user -> Message.promo m = None)).
  { intros m H. unfold ChatBubble.shows_promo_card, ChatBubble.isAgent.
    destruct (Message.promo m) as [c|]; [|split; [apply andb_false_r | reflexivity]].
    rewrite H by discriminate. split; [reflexivity | discriminate]. }
  induction Hreach as [wd e | ev page Hreach IH]; intros m Hin.
  - destruct Hin as [<- | []]. split; [reflexivity | intros _; reflexivity].
  - destruct ev as [text | now | which o now | e | | ]; cbn [Page.step] in Hin;
      try (apply IH; exact Hin).
    + unfold Page.handleSendMessage in Hin.
      destruct (is_empty _ || Page.isLoading page) eqn:Hguard; [apply IH; exact Hin|].
      cbn [Page.messages] in Hin. apply in_app_or in Hin as [Hin | [<- | []]];
        [apply IH; exact Hin|].
      split; [reflexivity | intros _; reflexivity].
    + destruct (nth_error (Page.in_flight page) which) as [p|]; [|apply IH; exact Hin].
      cbn [Page.messages] in Hin.
      destruct (resume_appends_one now p o page) as (m' & Hm & Hrole & _).
      rewrite Hm in Hin. apply in_app_or in Hin as [Hin | [<- | []]];
        [apply IH; exact Hin|].
      apply Hone. intros _. exact Hrole.
    + destruct Hin as [<- | []]. split; [reflexivity | intros _; reflexivity].
Qed.

(** ** The rows of the state panel *)

Lemma fully_done_iff_success (step : StatePanel.Step) :
  StatePanel.fully_done step
  = match StatePanelRow.style step with
    | StatePanelRow.SuccessStyle => true
    | _ => false
    end.
Proof.
  unfold StatePanel.fully_done, StatePanelRow.style, StatePanelRow.isWarning,
    StatePanelRow.isCompleted.
  destruct (StatePanel.value step) as [v|]; [|rewrite andb_false_r; reflexivity].
  destruct (String.eqb (StatePanel.key step) "beneficiaryName"); cbn [andb];
    [destruct (StatePanel.isWarning v)|]; reflexivity.
Qed.

(** X10.  The progress bar and the rows agree: a step counts towards the
    progress exactly when its row is drawn in the success style (neither
    empty nor warning), so the count is the number of success rows; and the
    only row that can be in the warning style is the beneficiary's. *)
Theorem progress_counts_success_rows (state : TransferState) :
  (forall step,
     StatePanel.fully_done step = true
     <-> StatePanelRow.style step = StatePanelRow.SuccessStyle)
  /\ StatePanel.completedStepsCount state
     = List.length
         (filter (fun step => match StatePanelRow.style step with
                              | StatePanelRow.SuccessStyle => true
                              | _ => false
                              end)
                 (StatePanel.steps state))
  /\ (forall step, In step (StatePanel.steps state) ->
        StatePanelRow.style step = StatePanelRow.WarningStyle ->
        StatePanel.key step = "beneficiaryName"
        /\ StatePanelRow.shown_note step = Some "Full name required").
Proof.
  split; [|split].
  - intros step. rewrite fully_done_iff_success.
    destruct (StatePanelRow.style step); split; congruence.
  - unfold StatePanel.completedStepsCount. f_equal.
    apply filter_ext. intros step. apply fully_done_iff_success.
  - intros step _ Hstyle.
    unfold StatePanelRow.style in Hstyle. unfold StatePanelRow.shown_note.
    destruct (StatePanelRow.isWarning step) eqn:Hw.
    + split; [|reflexivity].
      unfold StatePanelRow.isWarning in Hw.
      apply andb_true_iff in Hw as [Hw _]. apply andb_true_iff in Hw as [Hw _].
      apply String.eqb_eq. exact Hw.
    + destruct (StatePanelRow.isCompleted step); discriminate.
Qed.

(** X11.  The progress percentage lies between 0 and 100, and it is 100
    exactly when the four slots are filled and the beneficiary name has at
    least two tokens; the completion flag of the state plays no part in
    it. *)
Theorem percentage_bounds (state : TransferState) :
  (0 <= StatePanel.percentage state)%Q
  /\ (StatePanel.percentage state <= 100)%Q
  /\ ((StatePanel.percentage state == 100)%Q <-> fields_complete state = true)
  /\ StatePanel.percentage state
     = StatePanel.percentage
         {| destinationCountry := destinationCountry state;
            amount := amount state;
            beneficiaryName := beneficiaryName state;
            deliveryMethod := deliveryMethod state;
            isComplete := negb (isComplete state) |}.
Proof.
  assert (Hflag : StatePanel.percentage state
     = StatePanel.percentage
         {| destinationCountry := destinationCountry state;
            amount := amount state;
            beneficiaryName := beneficiaryName state;
            deliveryMethod := deliveryMethod state;
            isComplete := negb (isComplete state) |}) by reflexivity.
  split; [|split; [|split; [|exact Hflag]]];
    unfold StatePanel.percentage; rewrite completedStepsCount_counts_satisfied;
    unfold PanelSpec.satisfied_count, fields_complete;
    destruct (PanelSpec.filled (destinationCountry state)),
             (PanelSpec.filled (amount state)),
             (PanelSpec.name_satisfied (beneficiaryName state)),
             (PanelSpec.filled (deliveryMethod state));
    cbn; try (split; [discriminate | discriminate]);
    try (split; reflexivity); try discriminate.
Qed.

(** ** The model service *)

Lemma slice_ignores_older (A : Type) (n : nat) (older recent : list A) :
  (0 < n)%nat -> (n <= List.length recent)%nat ->
  slice (- Z.of_nat n) (older ++ recent) = slice (- Z.of_nat n) recent.
Proof.
  intros Hpos Hlen. rewrite !slice_last by exact Hpos.
  rewrite length_app, skipn_app.
  rewrite skipn_all2 by lia. cbn [app]. f_equal. lia.
Qed.

(** X12.  Messages older than the last ten never reach the model: once a
    history has ten messages, putting any earlier messages in front of it
    changes neither the prompt nor the call made to the model. *)
Theorem older_messages_do_not_reach_the_model
    (rt : Gemini.Runtime) (userMessage : string) (currentState : TransferState)
    (older recent : list Message)
    (Hten : (10 <= List.length recent)%nat) :
  Gemini.prompt userMessage currentState (older ++ recent)
  = Gemini.prompt userMessage currentState recent
  /\ Gemini.processUserMessage rt userMessage currentState (older ++ recent)
     = Gemini.processUserMessage rt userMessage currentState recent.
Proof.
  assert (Hprompt : Gemini.prompt userMessage currentState (older ++ recent)
                    = Gemini.prompt userMessage currentState recent).
  { unfold Gemini.prompt, Gemini.chatHistoryText.
    pose proof (slice_ignores_older Message 10 older recent) as Hslice.
    change (- Z.of_nat 10) with (-10) in Hslice.
    rewrite Hslice by lia. reflexivity. }
  split; [exact Hprompt|].
  unfold Gemini.processUserMessage, Gemini.attempt. rewrite Hprompt. reflexivity.
Qed.

(** X13.  For a history at the declared type (messages with role [user]
    or [agent] and text content), the service calls the model at most once
    per message and never retries: without a key in the environment (both variables unset or
    empty) it makes no call at all, and with a key it makes exactly one
    call, with that key, the model [gemini-2.5-flash], the prompt as
    contents, the system instruction, the JSON response type with the
    schema, and temperature 0.1, whatever the call then returns. *)
Theorem service_calls_the_model_at_most_once
    (rt : Gemini.Runtime) (userMessage : string)
    (currentState : TransferState) (messageHistory : list Message) :
  fst (Gemini.processUserMessage rt userMessage currentState messageHistory)
  = match Gemini.env_or (Gemini.GEMINI_API_KEY rt) (Gemini.API_KEY rt) with
    | Some key =>
        if is_empty key then []
        else [ {| Gemini.apiKey := key;
                  Gemini.model := "gemini-2.5-flash";
                  Gemini.contents :=
                    Gemini.prompt userMessage currentState messageHistory;
                  Gemini.systemInstruction := Gemini.SYSTEM_INSTRUCTION;
                  Gemini.responseMimeType := "application/json";
                  Gemini.schema := Gemini.responseSchema;
                  Gemini.temperature := 1 # 10 |} ]
    | None => []
    end.
Proof.
  unfold Gemini.processUserMessage, Gemini.attempt.
  destruct (Gemini.env_or _ _) as [key|]; [|reflexivity].
  destruct (is_empty key); [reflexivity|]. run_eff.
  destruct (Gemini.generateContent rt _) as [[t|]|e]; try reflexivity.
  destruct (is_empty t); [reflexivity|].
  destruct (Gemini.JSON_parse rt t); reflexivity.
Qed.

(** X14.  What the service returns is always one of two things: the
    model's answer exactly as [JSON.parse] read it, state included and
    unchecked, when a key is set, the call returned a non-empty text and the
    text parsed; or else the apology with the state it was given.  The
    state the caller gets back is therefore the model's or the unchanged
    one, never anything computed locally. *)
Theorem service_returns_model_answer_or_fallback
    (rt : Gemini.Runtime) (userMessage : string)
    (currentState : TransferState) (messageHistory : list Message) :
  let answer :=
    snd (Gemini.processUserMessage rt userMessage currentState messageHistory) in
  (exists key text parsed,
      Gemini.env_or (Gemini.GEMINI_API_KEY rt) (Gemini.API_KEY rt) = Some key
      /\ is_empty key = false
      /\ Gemini.generateContent rt
           (Gemini.call rt key (Gemini.prompt userMessage currentState messageHistory))
         = Return (Some text)
      /\ is_empty text = false
      /\ Gemini.JSON_parse rt text = Return parsed
      /\ answer = Return parsed)
  \/ (invocation_fails rt userMessage currentState messageHistory
      /\ answer = Return (Gemini.fallback currentState)).
Proof.
  cbv zeta. unfold invocation_fails. cbv zeta.
  unfold Gemini.processUserMessage, Gemini.attempt.
  destruct (Gemini.env_or _ _) as [key|] eqn:Hkey; cbn [Gemini.falsy_string];
    [destruct (is_empty key) eqn:Hk|].
  - right. split; [left; reflexivity | reflexivity].
  - run_eff.
    destruct (Gemini.generateContent rt _) as [[t|]|e] eqn:Hcall.
    + destruct (is_empty t) eqn:Ht.
      * right. split; [|reflexivity]. right; right; left.
        exists (Some t). split; [reflexivity | exact Ht].
      * destruct (Gemini.JSON_parse rt t) as [parsed|e] eqn:Hparse.
        -- left. exists key, t, parsed. repeat split; assumption.
        -- right. split; [|reflexivity]. right; right; right.
           exists t, e. split; [reflexivity | exact Hparse].
    + right. split; [|reflexivity]. right; right; left.
      exists None. split; reflexivity.
    + right. split; [|reflexivity]. right; left. exists e. reflexivity.
  - right. split; [left; reflexivity | reflexivity].
Qed.

(** ** The model-backed route, beyond validation *)

Lemma processUserMessage_shape (rt : Gemini.Runtime) (userMessage : string)
    (currentState : TransferState) (messageHistory : list Message) :
  exists calls answer,
    Gemini.processUserMessage rt userMessage currentState messageHistory
    = (calls, Return answer)
    /\ (List.length calls <= 1)%nat.
Proof.
  unfold Gemini.processUserMessage, Gemini.attempt.
  destruct (Gemini.env_or _ _) as [key|];
    [destruct (is_empty key)|]; run_eff;
    try (eexists _, _; split; [reflexivity | cbn; lia]).
  destruct (Gemini.generateContent rt _) as [[t|]|e];
    [destruct (is_empty t); [|destruct (Gemini.JSON_parse rt t)]| |];
    eexists _, _; (split; [reflexivity | cbn; lia]).
Qed.

Lemma Get_of_object (requestBody : JSValue) (k : string) (v : JSValue) :
  Get requestBody k = Return v ->
  requestBody <> JNull /\ requestBody <> JUndefined
  /\ GetOpt requestBody k = v
  /\ forall k', Get requestBody k' = Return (GetOpt requestBody k').
Proof.
  destruct requestBody; cbn; try discriminate; intros H;
    (split; [discriminate|]); (split; [discriminate|]);
    (split; [congruence|]); reflexivity.
Qed.

Lemma service_fallback_on_failure (rt : Gemini.Runtime) (userMessage : string)
    (currentState : TransferState) (messageHistory : list Message) :
  invocation_fails rt userMessage currentState messageHistory ->
  snd (Gemini.processUserMessage rt userMessage currentState messageHistory)
  = Return (Gemini.fallback currentState).
Proof.
  intros Hfails. apply attempt_throws_iff in Hfails as [e Hthrown].
  unfold Gemini.processUserMessage, try_catch.
  destruct (Gemini.attempt rt userMessage currentState messageHistory) as [l r].
  cbn [snd] in Hthrown. subst r. reflexivity.
Qed.

(** X15.  A failure of the model never surfaces as an HTTP error.  For a
    request at the declared types (non-empty string [userMessage], a
    [currentState] that is a transfer state with its five properties, a
    history that normalises to entries with the role and content of
    messages, read as such by the route's casts), the model-backed route
    answers with status 200 and exactly what the service returned for that
    text, state and history, after exactly the calls the service made; and
    when the invocation fails that is the apology with the state the request
    carried. *)
Theorem chat_route_answers_200_even_when_the_model_fails
    (rt : ChatRoute.Runtime) (requestBody : JSValue) (text : string)
    (state : TransferState) (history : list JSValue) (turns : list Message)
    (Hmessage : Get requestBody "userMessage" = Return (JString text))
    (Hnonempty : is_empty text = false)
    (Hstate : GetOpt requestBody "currentState" = state_value state)
    (Hhistory : normalize_history (GetOpt requestBody "messageHistory")
                = Return history)
    (Hturns : Forall2 represents history turns)
    (Hcast_state : ChatRoute.as_TransferState rt (state_value state) = state)
    (Hcast_turns : ChatRoute.as_Messages rt history = turns) :
  exists answer,
    ChatRoute.POST rt {| json := Return requestBody |}
    = (fst (Gemini.processUserMessage (ChatRoute.service rt) text state turns),
       Return {| status := 200; body := AgentBody answer |})
    /\ snd (Gemini.processUserMessage (ChatRoute.service rt) text state turns)
       = Return answer
    /\ (invocation_fails (ChatRoute.service rt) text state turns ->
        answer = {| AgentResponse.agentResponse := Gemini.apology;
                    AgentResponse.updatedState := state;
                    AgentResponse.promo := None |}).
Proof.
  destruct (Get_of_object _ _ _ Hmessage) as (_ & _ & _ & Hget).
  destruct (processUserMessage_shape (ChatRoute.service rt) text state turns)
    as (calls & answer & Hrun & _).
  exists answer. split; [|split].
  - unfold ChatRoute.POST, ChatRoute.handler. run_eff. cbn [json].
    rewrite Hmessage, !Hget.
    unfold userMessage_rejected. cbn [ToBoolean typeof_is_string].
    rewrite Hnonempty, Hstate. cbn [ToBoolean state_value negb orb].
    rewrite Hhistory. cbn [string_of]. rewrite Hcast_state, Hcast_turns.
    rewrite Hrun. cbn [fst]. rewrite app_nil_r. reflexivity.
  - rewrite Hrun. reflexivity.
  - intros Hfails.
    pose proof (service_fallback_on_failure (ChatRoute.service rt) text state turns
                  Hfails) as Hfb.
    rewrite Hrun in Hfb. cbn [snd] in Hfb. injection Hfb as ->. reflexivity.
Qed.

(** X16.  The model-backed route always answers and never throws: its
    status is 200, 400 or 500, it calls the model at most once, and an
    answer other than 200 means that the model was not called at all. *)
Theorem chat_route_always_answers (rt : ChatRoute.Runtime) (request : Request) :
  exists calls answer,
    ChatRoute.POST rt request = (calls, Return answer)
    /\ (List.length calls <= 1)%nat
    /\ (status answer = 200 \/ status answer = 400 \/ status answer = 500)
    /\ (status answer <> 200 -> calls = []).
Proof.
  assert (Hfail : forall answer : HttpResponse,
             status answer = 400 \/ status answer = 500 ->
             (List.length (@nil Gemini.ModelCall) <= 1)%nat
             /\ (status answer = 200 \/ status answer = 400 \/ status answer = 500)
             /\ (status answer <> 200 -> @nil Gemini.ModelCall = [])).
  { intros answer H. split; [cbn; lia|]. split; [tauto | reflexivity]. }
  unfold ChatRoute.POST, ChatRoute.handler. run_eff.
  destruct (json request) as [requestBody|e];
    [|eexists _, _; split; [reflexivity | apply Hfail; right; reflexivity]].
  destruct (Get requestBody "userMessage") as [userMessage|e] eqn:Hget;
    [|eexists _, _; split; [reflexivity | apply Hfail; right; reflexivity]].
  destruct (Get_of_object _ _ _ Hget) as (_ & _ & _ & Hall).
  rewrite !Hall.
  destruct (userMessage_rejected userMessage);
    [eexists _, _; split; [reflexivity | apply Hfail; left; reflexivity]|].
  destruct (negb (ToBoolean (GetOpt requestBody "currentState")));
    [eexists _, _; split; [reflexivity | apply Hfail; left; reflexivity]|].
  destruct (normalize_history (GetOpt requestBody "messageHistory")) as [history|e];
    [|eexists _, _; split; [reflexivity | apply Hfail; right; reflexivity]].
  destruct (processUserMessage_shape (ChatRoute.service rt)
              (string_of userMessage)
              (ChatRoute.as_TransferState rt (GetOpt requestBody "currentState"))
              (ChatRoute.as_Messages rt history))
    as (calls & answer & -> & Hlen).
  eexists _, _. split; [reflexivity|].
  cbn [app status json_response]. rewrite app_nil_r.
  split; [exact Hlen|]. split; [left; reflexivity | congruence].
Qed.

(** ** The proxy route, beyond validation *)

Lemma not_ok_is_not_200 (r : ProxyRoute.FetchResponse) :
  ProxyRoute.ok r = false -> ProxyRoute.response_status r <> 200.
Proof.
  unfold ProxyRoute.ok. intros H Heq. rewrite Heq in H. discriminate.
Qed.

(** X17.  The proxy route always answers and never throws; it forwards at
    most one request to the backend (no retry); and an answer with status
    200 is only ever the backend's own OK answer, its JSON body passed on
    unchanged. *)
Theorem proxy_always_answers (rt : ProxyRoute.Runtime) (request : Request) :
  exists forwarded answer,
    ProxyRoute.POST rt request = (forwarded, Return answer)
    /\ (List.length forwarded <= 1)%nat
    /\ (status answer = 200 ->
        exists sent response data,
          forwarded = [sent]
          /\ ProxyRoute.fetch rt sent = Return response
          /\ ProxyRoute.ok response = true
          /\ ProxyRoute.response_json response = Return data
          /\ body answer = DataBody data).
Proof.
  unfold ProxyRoute.POST, ProxyRoute.handler. run_eff.
  destruct (ProxyRoute.before_fetch rt request) as [[early|sent]|e] eqn:Hbefore.
  - eexists _, _. split; [reflexivity|]. split; [cbn; lia|].
    intros H200. exfalso. revert H200.
    unfold ProxyRoute.before_fetch in Hbefore.
    destruct (json request) as [b|]; [|discriminate].
    cbn [Exc_bind] in Hbefore.
    destruct (Get b "userMessage") as [um|]; [|discriminate].
    destruct (Get b "messageHistory") as [mh|]; [|discriminate].
    destruct (Get b "sessionId") as [sid|]; [|discriminate].
    cbn [Exc_bind] in Hbefore.
    destruct (userMessage_rejected um).
    + injection Hbefore as <-. discriminate.
    + destruct (normalize_history mh); [|discriminate].
      cbn [Exc_bind] in Hbefore.
      destruct (ProxyRoute.URL_accepts rt _); [|discriminate].
      destruct (ToBoolean sid && unconvertible sid); discriminate.
  - destruct (ProxyRoute.fetch rt sent) as [response|e] eqn:Hfetch.
    + unfold ProxyRoute.after_fetch.
      destruct (ProxyRoute.ok response) eqn:Hok; cbn [negb].
      * destruct (ProxyRoute.response_json response) as [data|e] eqn:Hjson;
          cbn [Exc_bind].
        -- eexists _, _. split; [reflexivity|]. split; [cbn; lia|].
           intros _. exists sent, response, data. repeat split; assumption.
        -- eexists _, _. split; [reflexivity|]. split; [cbn; lia|].
           discriminate.
      * destruct (NextResponse_json _ (ProxyRoute.response_status response))
          as [built|e] eqn:Hbuilt.
        -- eexists _, _. split; [reflexivity|]. split; [cbn; lia|].
           intros H. exfalso. apply (not_ok_is_not_200 response Hok).
           unfold NextResponse_json in Hbuilt.
           destruct (_ || _); [discriminate|].
           destruct (null_body_status _); [discriminate|].
           injection Hbuilt as <-. exact H.
        -- eexists _, _. split; [reflexivity|]. split; [cbn; lia|]. discriminate.
    + eexists _, _. split; [reflexivity|]. split; [cbn; lia|]. discriminate.
  - eexists _, _. split; [reflexivity|]. split; [cbn; lia|]. discriminate.
Qed.

(** X18.  Once a request has passed validation and is forwarded: when the
    backend answers OK with a JSON body, the route returns that body
    unchanged with status 200; when the body of an OK answer is not JSON, or
    when the backend cannot be reached at all, the route returns the generic
    500.  In each case exactly one request went out. *)
Theorem proxy_passes_backend_answer_through
    (rt : ProxyRoute.Runtime) (request : Request) (sent : ProxyRoute.FetchRequest)
    (Hforward : ProxyRoute.before_fetch rt request = Return (inr sent)) :
  (forall response,
     ProxyRoute.fetch rt sent = Return response ->
     ProxyRoute.ok response = true ->
     ProxyRoute.POST rt request
     = ([sent],
        Return match ProxyRoute.response_json response with
               | Return data => {| status := 200; body := DataBody data |}
               | Throw _ =>
                   {| status := 500;
                      body := ErrorBody (JString "Internal server error") |}
               end))
  /\ (forall e,
        ProxyRoute.fetch rt sent = Throw e ->
        ProxyRoute.POST rt request
        = ([sent],
           Return {| status := 500;
                     body := ErrorBody (JString "Internal server error") |})).
Proof.
  split.
  - intros response Hfetch Hok.
    unfold ProxyRoute.POST, ProxyRoute.handler. rewrite Hforward. run_eff.
    rewrite Hfetch. unfold ProxyRoute.after_fetch. rewrite Hok. cbn [negb].
    destruct (ProxyRoute.response_json response); reflexivity.
  - intros e Hfetch.
    unfold ProxyRoute.POST, ProxyRoute.handler. rewrite Hforward. run_eff.
    rewrite Hfetch. reflexivity.
Qed.

(** ** The backend URL *)

Lemma strip_appended_slash (s : string) :
  ProxyRoute.strip_trailing_slash (s ++ "/") = s.
Proof.
  induction s as [|c s IH]; [reflexivity|].
  cbn [append ProxyRoute.strip_trailing_slash].
  destruct s as [|c' s']; [reflexivity|].
  cbn [append] in *. rewrite IH. reflexivity.
Qed.

Lemma strip_without_slash (s : string) :
  ends_with_slash s = false -> ProxyRoute.strip_trailing_slash s = s.
Proof.
  induction s as [|c s IH]; [reflexivity|].
  cbn [ends_with_slash ProxyRoute.strip_trailing_slash].
  destruct s as [|c' s'].
  - intros ->. reflexivity.
  - intros H. rewrite IH by exact H. reflexivity.
Qed.

(** X19.  The backend is addressed at the configured base URL followed by
    [/api/chat], and a slash at the end of the base makes no difference:
    the bases [u/] and [u] (not ending in a slash) give the same address.
    The base is the first non-empty one of [PYTHON_SERVICE_URL] and
    [NEXT_PUBLIC_PYTHON_SERVICE_URL], and [http://localhost:8000] when both
    are unset or empty. *)
Theorem backend_address
    (rt : ProxyRoute.Runtime) (request : Request) (sent : ProxyRoute.FetchRequest)
    (Hforward : ProxyRoute.before_fetch rt request = Return (inr sent)) :
  (forall u, ProxyRoute.PYTHON_SERVICE_URL rt = u ++ "/" ->
             ProxyRoute.url sent = u ++ "/api/chat")
  /\ (forall u, ProxyRoute.PYTHON_SERVICE_URL rt = u -> ends_with_slash u = false ->
                ProxyRoute.url sent = u ++ "/api/chat")
  /\ (Gemini.falsy_string (ProxyRoute.env_PYTHON_SERVICE_URL rt) = true ->
      Gemini.falsy_string (ProxyRoute.env_NEXT_PUBLIC_PYTHON_SERVICE_URL rt) = true ->
      ProxyRoute.url sent = "http://localhost:8000/api/chat")
  /\ (forall u, ProxyRoute.env_PYTHON_SERVICE_URL rt = Some u -> is_empty u = false ->
                ProxyRoute.PYTHON_SERVICE_URL rt = u).
Proof.
  assert (Hurl : ProxyRoute.url sent
                 = ProxyRoute.strip_trailing_slash (ProxyRoute.PYTHON_SERVICE_URL rt)
                   ++ "/api/chat").
  { unfold ProxyRoute.before_fetch in Hforward.
    destruct (json request) as [b|]; [|discriminate].
    cbn [Exc_bind] in Hforward.
    destruct (Get b "userMessage") as [um|]; [|discriminate].
    destruct (Get b "messageHistory") as [mh|]; [|discriminate].
    destruct (Get b "sessionId") as [sid|]; [|discriminate].
    cbn [Exc_bind] in Hforward.
    destruct (userMessage_rejected um); [discriminate|].
    destruct (normalize_history mh); [|discriminate].
    cbn [Exc_bind] in Hforward.
    destruct (ProxyRoute.URL_accepts rt _); [|discriminate].
    destruct (ToBoolean sid && unconvertible sid); [discriminate|].
    injection Hforward as <-. reflexivity. }
  split; [|split; [|split]].
  - intros u Hu. rewrite Hurl, Hu, strip_appended_slash. reflexivity.
  - intros u Hu Hno. rewrite Hurl, Hu, strip_without_slash by exact Hno. reflexivity.
  - intros H1 H2. rewrite Hurl. unfold ProxyRoute.PYTHON_SERVICE_URL, Gemini.env_or.
    destruct (ProxyRoute.env_PYTHON_SERVICE_URL rt) as [a|];
      destruct (ProxyRoute.env_NEXT_PUBLIC_PYTHON_SERVICE_URL rt) as [b|];
      cbn [Gemini.falsy_string] in H1, H2;
      try rewrite H1; try rewrite H2; reflexivity.
  - intros u Hu Hne. unfold ProxyRoute.PYTHON_SERVICE_URL, Gemini.env_or.
    rewrite Hu, Hne, Hne. reflexivity.
Qed.

(** ** Normalising the history *)

Lemma lookup_set_same (k : string) (v : JSValue) (ps : list (string * JSValue)) :
  lookup k (set_property k v ps) = Some v.
Proof.
  induction ps as [|[k' v'] ps IH]; cbn.
  - rewrite String.eqb_refl. reflexivity.
  - destruct (String.eqb k k') eqn:Hk; cbn; rewrite Hk; [reflexivity | exact IH].
Qed.

Lemma lookup_set_other (k k' : string) (v : JSValue) (ps : list (string * JSValue)) :
  k' <> k -> lookup k' (set_property k v ps) = lookup k' ps.
Proof.
  intros Hne. induction ps as [|[k0 v0] ps IH]; cbn.
  - apply String.eqb_neq in Hne. rewrite Hne. reflexivity.
  - destruct (String.eqb k k0) eqn:Hk; cbn.
    + apply String.eqb_eq in Hk. subst k0.
      apply String.eqb_neq in Hne. rewrite Hne. reflexivity.
    + destruct (String.eqb k' k0); [reflexivity | exact IH].
Qed.

Lemma set_property_present (k : string) (v : JSValue) (ps : list (string * JSValue)) :
  lookup k ps = Some v -> set_property k v ps = ps.
Proof.
  induction ps as [|[k' v'] ps IH]; cbn; [discriminate|].
  destruct (String.eqb k k') eqn:Hk.
  - intros H. injection H as ->. reflexivity.
  - intros H. rewrite IH by exact H. reflexivity.
Qed.

Lemma set_property_length (k : string) (v : JSValue) (ps : list (string * JSValue)) :
  List.length (set_property k v ps)
  = match lookup k ps with
    | Some _ => List.length ps
    | None => S (List.length ps)
    end.
Proof.
  induction ps as [|[k' v'] ps IH]; cbn; [reflexivity|].
  destruct (String.eqb k k'); cbn; [reflexivity|].
  rewrite IH. destruct (lookup k ps); reflexivity.
Qed.

(** X20.  Normalising a message object only touches its [timestamp].
    When the old [timestamp] can be converted to a primitive (it is absent,
    a string, a number, a [Date], or an object or array without an own
    [toString]), the result is an object whose [timestamp] is a [Date],
    every other property reads as before, no property is dropped, and
    normalising the result again changes nothing.  When it cannot,
    [new Date] throws and so does the normalisation. *)
Theorem normalize_message_only_touches_timestamp
    (ps : list (string * JSValue))
    (Hconverts : unconvertible (GetOpt (JObject ps) "timestamp") = false) :
  (exists ps',
      normalize_message (JObject ps) = Return (JObject ps')
      /\ (exists source, lookup "timestamp" ps' = Some (JDate source))
      /\ (forall k, k <> "timestamp" -> lookup k ps' = lookup k ps)
      /\ (List.length ps <= List.length ps' <= S (List.length ps))%nat
      /\ normalize_message (JObject ps') = Return (JObject ps'))
  /\ (forall qs,
        unconvertible (GetOpt (JObject qs) "timestamp") = true ->
        exists e, normalize_message (JObject qs) = Throw e).
Proof.
  split.
  - cbn [GetOpt] in Hconverts.
    unfold normalize_message at 1. cbn [Get Exc_bind spread].
    set (ts := match lookup "timestamp" ps with Some x => x | None => JUndefined end)
      in *.
    set (date := match ts with JDate _ => ts | _ => JDate ts end).
    assert (Hnew : match ts with JDate _ => Return ts | _ => new_Date ts end
                   = Return date).
    { unfold date, new_Date. destruct ts; try reflexivity; rewrite Hconverts;
        reflexivity. }
    rewrite Hnew. cbn [Exc_bind].
    assert (Hdate : exists source, date = JDate source).
    { unfold date. destruct ts; eexists; reflexivity. }
    destruct Hdate as [source Hdate].
    exists (set_property "timestamp" date ps).
    split; [reflexivity|]. split; [|split; [|split]].
    + exists source. rewrite lookup_set_same, Hdate. reflexivity.
    + intros k Hk. apply lookup_set_other. exact Hk.
    + rewrite set_property_length. destruct (lookup "timestamp" ps); lia.
    + unfold normalize_message. cbn [Get Exc_bind spread].
      rewrite lookup_set_same. rewrite Hdate. cbn [Exc_bind].
      rewrite set_property_present; [reflexivity|].
      rewrite <- Hdate. apply lookup_set_same.
  - intros qs Hbad. cbn [GetOpt] in Hbad.
    unfold normalize_message. cbn [Get Exc_bind].
    destruct (match lookup "timestamp" qs with Some x => x | None => JUndefined end);
      try discriminate; unfold new_Date; rewrite Hbad; eexists; reflexivity.
Qed.

Lemma normalize_message_outcome (m : JSValue) :
  if normalisable_entry m
  then exists m', normalize_message m = Return m'
  else exists e, normalize_message m = Throw e.
Proof.
  unfold normalisable_entry, normalize_message.
  destruct m; cbn [readable_entry andb GetOpt Get Exc_bind unconvertible negb new_Date];
    try (eexists; reflexivity).
  destruct (match lookup "timestamp" properties with
            | Some x => x
            | None => JUndefined
            end) eqn:Hts;
    try (cbn; eexists; reflexivity);
    unfold new_Date; destruct (unconvertible _); cbn; eexists; reflexivity.
Qed.

Lemma normalize_history_fails_on_bad_entry (msgs : list JSValue) :
  forallb normalisable_entry msgs = false ->
  exists e, normalize_history (JArray msgs) = Throw e.
Proof.
  unfold normalize_history, or_else. cbn [ToBoolean].
  induction msgs as [|m msgs IH]; cbn [forallb Exc_map]; [discriminate|].
  intros H. pose proof (normalize_message_outcome m) as Hm.
  destruct (normalisable_entry m); cbn [andb] in H.
  - destruct Hm as [m' ->]. cbn [Exc_bind].
    destruct (IH H) as [e ->]. eexists. reflexivity.
  - destruct Hm as [e ->]. eexists. reflexivity.
Qed.

Lemma normalize_history_succeeds_on_good_entries (msgs : list JSValue) :
  forallb normalisable_entry msgs = true ->
  exists normalized,
    normalize_history (JArray msgs) = Return normalized
    /\ List.length normalized = List.length msgs.
Proof.
  unfold normalize_history, or_else. cbn [ToBoolean].
  induction msgs as [|m msgs IH]; cbn [forallb Exc_map].
  - intros _. exists []. split; reflexivity.
  - intros H. apply andb_true_iff in H as [Hm H].
    destruct (IH H) as (normalized & -> & Hlen).
    pose proof (normalize_message_outcome m) as Hone. rewrite Hm in Hone.
    destruct Hone as [m' ->]. cbn [Exc_bind].
    eexists. split; [reflexivity|]. cbn. rewrite Hlen. reflexivity.
Qed.

(** X21.  The history of a request is optional but not validated: a
    missing or falsy [messageHistory] counts as the empty history; an array
    normalises, keeping its length, exactly when every entry can be
    normalised (none is [null], and each [timestamp] can be made a [Date]);
    and a request with a valid [userMessage] whose history has an entry
    that cannot be normalised, or is a truthy value that is not an array, is
    answered by the proxy route with the generic 500, not a 400, and is not
    forwarded. *)
Theorem history_is_optional_but_unchecked
    (rt : ProxyRoute.Runtime) (requestBody : JSValue) (text : string)
    (Hmessage : Get requestBody "userMessage" = Return (JString text))
    (Hnonempty : is_empty text = false) :
  (forall v, ToBoolean v = false -> normalize_history v = Return [])
  /\ (forall msgs,
        (exists normalized,
            normalize_history (JArray msgs) = Return normalized
            /\ List.length normalized = List.length msgs)
        <-> forallb normalisable_entry msgs = true)
  /\ ((exists msgs, GetOpt requestBody "messageHistory" = JArray msgs
                    /\ forallb normalisable_entry msgs = false)
      \/ (ToBoolean (GetOpt requestBody "messageHistory") = true
          /\ forall msgs, GetOpt requestBody "messageHistory" <> JArray msgs) ->
      ProxyRoute.POST rt {| json := Return requestBody |}
      = ([], Return {| status := 500;
                       body := ErrorBody (JString "Internal server error") |})).
Proof.
  split; [|split].
  - intros v Hv. unfold normalize_history, or_else. rewrite Hv. reflexivity.
  - intros msgs. split.
    + intros (normalized & Hn & _).
      destruct (forallb normalisable_entry msgs) eqn:Hall; [reflexivity|].
      destruct (normalize_history_fails_on_bad_entry msgs Hall) as [e He].
      congruence.
    + apply normalize_history_succeeds_on_good_entries.
  - intros Hbad.
    assert (Hthrow : exists e,
               normalize_history (GetOpt requestBody "messageHistory") = Throw e).
    { destruct Hbad as [(msgs & -> & Hall) | [Htruthy Hnot]].
      - apply normalize_history_fails_on_bad_entry. exact Hall.
      - unfold normalize_history, or_else. rewrite Htruthy.
        destruct (GetOpt requestBody "messageHistory") eqn:Hmh;
          try (eexists; reflexivity).
        exfalso. apply (Hnot elements). reflexivity. }
    destruct Hthrow as [e He].
    destruct (Get_of_object _ _ _ Hmessage) as (_ & _ & _ & Hall).
    unfold ProxyRoute.POST, ProxyRoute.handler, ProxyRoute.before_fetch.
    cbn [json Exc_bind]. rewrite Hmessage, !Hall. cbn [Exc_bind].
    unfold userMessage_rejected. cbn [ToBoolean typeof_is_string].
    rewrite Hnonempty. cbn [negb orb]. rewrite He. reflexivity.
Qed.

(** ** The serialised state *)

Lemma unquote_quote_char (c : ascii) (rest : string) :
  unquote_char (Gemini.quote_char c ++ rest) = Some (c, rest).
Proof.
  destruct c as [[|] [|] [|] [|] [|] [|] [|] [|]]; reflexivity.
Qed.

Lemma quote_char_prefix_free (c1 c2 : ascii) (r1 r2 : string) :
  Gemini.quote_char c1 ++ r1 = Gemini.quote_char c2 ++ r2 -> c1 = c2 /\ r1 = r2.
Proof.
  intros H. apply (f_equal unquote_char) in H.
  rewrite !unquote_quote_char in H. injection H as -> ->. split; reflexivity.
Qed.

(** A quoted string can be read back without knowing where it ends. *)
Lemma quote_chars_self_delimiting (s1 s2 r1 r2 : string) :
  Gemini.quote_chars s1 ++ dquote ++ r1 = Gemini.quote_chars s2 ++ dquote ++ r2 ->
  s1 = s2 /\ r1 = r2.
Proof.
  revert s2. induction s1 as [|c1 s1 IH]; intros [|c2 s2] H; cbn in H.
  - injection H as ->. split; reflexivity.
  - exfalso. apply (f_equal unquote_char) in H.
    rewrite append_assoc, unquote_quote_char in H. discriminate.
  - exfalso. apply (f_equal unquote_char) in H.
    rewrite append_assoc, unquote_quote_char in H. discriminate.
  - rewrite !append_assoc in H.
    apply quote_char_prefix_free in H as [-> H].
    apply IH in H as [-> ->]. split; reflexivity.
Qed.

Lemma stringify_nullable_self_delimiting (a b : option string) (r1 r2 : string) :
  Gemini.stringify_nullable a ++ "," ++ r1 = Gemini.stringify_nullable b ++ "," ++ r2 ->
  a = b /\ r1 = r2.
Proof.
  destruct a as [s1|], b as [s2|]; unfold Gemini.stringify_nullable, Gemini.quote;
    intros H.
  - rewrite !append_assoc in H. cbn [append dquote] in H.
    injection H as H.
    change (Gemini.quote_chars s1 ++ dquote ++ ("," ++ r1)
            = Gemini.quote_chars s2 ++ dquote ++ ("," ++ r2)) in H.
    apply quote_chars_self_delimiting in H as [-> H].
    injection H as ->. split; reflexivity.
  - rewrite !append_assoc in H. cbn in H. discriminate.
  - rewrite !append_assoc in H. cbn in H. discriminate.
  - cbn in H. injection H as ->. split; reflexivity.
Qed.

Lemma append_cancel (p a b : string) : p ++ a = p ++ b -> a = b.
Proof.
  induction p as [|c p IH]; cbn; [trivial|].
  intros H. injection H as H. apply IH. exact H.
Qed.

(** X22.  The state block of the prompt is unambiguous: two transfer
    states with the same serialisation are the same state.  Whatever a
    field contains (quotes, backslashes, line breaks, text that looks like
    another field), it cannot make one state read as another. *)
Theorem stringify_state_is_injective
    (st1 st2 : TransferState)
    (Hsame : Gemini.stringify_state st1 = Gemini.stringify_state st2) :
  st1 = st2.
Proof.
  destruct st1 as [d1 a1 n1 m1 f1], st2 as [d2 a2 n2 m2 f2].
  unfold Gemini.stringify_state in Hsame.
  cbn [destinationCountry amount beneficiaryName deliveryMethod isComplete] in Hsame.
  do 5 apply append_cancel in Hsame.
  apply stringify_nullable_self_delimiting in Hsame as [-> Hsame].
  do 4 apply append_cancel in Hsame.
  apply stringify_nullable_self_delimiting in Hsame as [-> Hsame].
  do 4 apply append_cancel in Hsame.
  apply stringify_nullable_self_delimiting in Hsame as [-> Hsame].
  do 4 apply append_cancel in Hsame.
  apply stringify_nullable_self_delimiting in Hsame as [-> Hsame].
  do 4 apply append_cancel in Hsame.
  destruct f1, f2; cbn in Hsame; try discriminate; reflexivity.
Qed.

(** X23.  The history block of the prompt, unlike the state block, is not
    escaped: a message whose content continues with a line break and the
    line of another message renders exactly like the two messages in
    sequence, so the model cannot tell one from the other. *)
Theorem history_lines_are_not_escaped
    (userMessage : string) (currentState : TransferState) (first second : Message) :
  let merged :=
    {| Message.id := Message.id first;
       Message.role := Message.role first;
       Message.content :=
         Message.content first ++ newline ++ Gemini.history_line second;
       Message.timestamp := Message.timestamp first;
       Message.promo := Message.promo first |} in
  Gemini.chatHistoryText [first; second] = Gemini.chatHistoryText [merged]
  /\ Gemini.prompt userMessage currentState [first; second]
     = Gemini.prompt userMessage currentState [merged].
Proof.
  cbv zeta.
  assert (H : Gemini.chatHistoryText [first; second]
              = Gemini.chatHistoryText
                  [ {| Message.id := Message.id first;
                       Message.role := Message.role first;
                       Message.content :=
                         Message.content first ++ newline ++ Gemini.history_line second;
                       Message.timestamp := Message.timestamp first;
                       Message.promo := Message.promo first |} ]).
  { unfold Gemini.chatHistoryText.
    change (slice (-10) [first; second]) with [first; second].
    match goal with
    | |- _ = join _ (map _ (slice (-10) [?m])) =>
        change (slice (-10) [m]) with [m]
    end.
    cbn [map join]. unfold Gemini.history_line.
    cbn [Message.role Message.content].
    rewrite !append_assoc. reflexivity. }
  split; [exact H|]. unfold Gemini.prompt. rewrite H. reflexivity.
Qed.

(** ** Reset while a request is outstanding *)

(** X24.  A reset neither cancels the outstanding request nor unblocks
    sending: after it the page is still loading with the same request in
    flight and sending does nothing; and when the answer arrives, whatever
    it is, it is appended right after the greeting of the fresh
    conversation. *)
Theorem reset_does_not_cancel
    (loaded : Date) (page : Page.Home) (e : Page.Entropy)
    (o : Page.Outcome) (now : Z)
    (Hreach : Page.reachable loaded page)
    (Hload : Page.isLoading page = true) :
  let fresh := Page.step loaded (Page.Reset e) page in
  Page.isLoading fresh = true
  /\ Page.in_flight fresh = Page.in_flight page
  /\ (forall later, Page.step loaded (Page.Submit later) fresh = fresh)
  /\ exists late,
       Page.messages (Page.step loaded (Page.Settle 0 o now) fresh)
       = [Page.INITIAL_MESSAGE loaded; late]
       /\ Message.role late = agent.
Proof.
  cbv zeta. cbn [Page.step].
  split; [exact Hload|]. split; [reflexivity|]. split.
  - intros later. unfold Page.handleSendMessage.
    cbn [Page.handleReset Page.isLoading Page.inputValue]. rewrite Hload.
    rewrite orb_true_r. reflexivity.
  - pose proof (in_flight_tracks_loading loaded page Hreach) as Hone.
    rewrite Hload in Hone.
    cbn [Page.handleReset Page.in_flight].
    destruct (Page.in_flight page) as [|p [|q l]]; try discriminate.
    cbn [nth_error Page.messages].
    destruct (resume_appends_one now p o (Page.handleReset loaded e page))
      as (late & Hm & Hrole & _).
    exists late. split; [exact Hm | exact Hrole].
Qed.

(** ** Instances of the further properties *)

Lemma waiting_page_reachable : Page.reachable Sample.loaded_at Sample.waiting_page.
Proof.
  unfold Sample.waiting_page.
  apply Page.reachable_step, Page.reachable_step, Page.reachable_initial.
Defined.

Lemma page_requests_are_well_formed_witness :
  is_empty (Page.sessionId Sample.waiting_page) = false
  /\ request_well_formed (Page.sent Scenario.first_call).
Proof.
  destruct (page_requests_are_well_formed Sample.loaded_at Sample.waiting_page
              waiting_page_reachable) as [Hsession Hrequests].
  split; [exact Hsession|].
  apply Hrequests. left. reflexivity.
Defined.

Lemma page_requests_pass_the_proxy_witness :
  exists normalized,
    ProxyRoute.before_fetch Sample.refusing_backend
      (Wire.of_request Scenario.iso (Page.sent Scenario.first_call))
    = Return (inr
        {| ProxyRoute.url := "http://127.0.0.1:8000/api/chat";
           ProxyRoute.session_id :=
             Some (JString "123e4567-e89b-42d3-a456-426614174000");
           ProxyRoute.method := "POST";
           ProxyRoute.content_type := "application/json";
           ProxyRoute.payload :=
             JObject [("userMessage", JString "send money to Brazil");
                      ("messageHistory", JArray normalized)] |})
    /\ List.length normalized = 2%nat.
Proof.
  apply (page_requests_pass_the_proxy Sample.loaded_at Sample.waiting_page
           Scenario.first_call Scenario.iso Sample.refusing_backend
           waiting_page_reachable).
  - left. reflexivity.
  - reflexivity.
Defined.

Lemma messages_are_append_only_witness :
  exists added,
    Page.messages (Page.step Sample.loaded_at (Page.Submit 1700000009000)
                     (Page.step Sample.loaded_at (Page.Change "hello") Sample.fresh_page))
    = (Page.messages (Page.step Sample.loaded_at (Page.Change "hello") Sample.fresh_page)
       ++ added)%list
    /\ (List.length added <= 1)%nat.
Proof.
  apply (messages_are_append_only Sample.loaded_at (Page.Submit 1700000009000)).
  reflexivity.
Defined.

Lemma greeting_is_always_first_witness :
  exists rest,
    Page.messages Sample.waiting_page = Page.INITIAL_MESSAGE Sample.loaded_at :: rest.
Proof.
  apply (greeting_is_always_first Sample.loaded_at Sample.waiting_page).
  exact waiting_page_reachable.
Defined.

Lemma transfer_state_is_framed_witness :
  Page.transferState
    (Page.step Sample.loaded_at (Page.Settle 0 Page.FetchRejects 1700000002000)
       Sample.waiting_page)
  = Page.transferState Sample.waiting_page.
Proof.
  apply (transfer_state_is_framed Sample.loaded_at
           (Page.Settle 0 Page.FetchRejects 1700000002000)).
  reflexivity.
Defined.

Lemma answer_without_state_is_neutral_without_reset_witness :
  Page.transferState
    (Page.step Sample.loaded_at
       (Page.Settle 0
          (Page.Responds true
             (Return {| Page.agentResponse := Some "Noted.";
                        Page.updatedState := None;
                        Page.promo := None |}))
          1700000005000)
       (Page.run Sample.loaded_at Scenario.second_message_waiting
          (Page.initial Sample.loaded_at true Sample.browser)))
  = Sample.to_brazil.
Proof.
  rewrite (answer_without_state_is_neutral_without_reset Sample.loaded_at true
             Sample.browser Scenario.second_message_waiting 0 1700000005000
             "Noted." None);
    reflexivity.
Defined.

Lemma every_outcome_ends_loading_witness :
  Page.isLoading
    (Page.step Sample.loaded_at (Page.Settle 0 Page.FetchRejects 1700000002000)
       Sample.waiting_page) = false
  /\ Page.in_flight
       (Page.step Sample.loaded_at (Page.Settle 0 Page.FetchRejects 1700000002000)
          Sample.waiting_page) = [].
Proof.
  destruct (every_outcome_ends_loading Sample.loaded_at Sample.waiting_page
              Page.FetchRejects 1700000002000 waiting_page_reachable eq_refl)
    as (Hload & Hflight & _).
  split; [exact Hload | exact Hflight].
Defined.

Lemma promo_only_on_agent_messages_witness :
  ChatBubble.shows_promo_card Scenario.first_message = false
  /\ (Message.role Scenario.first_message = user ->
      Message.promo Scenario.first_message = None).
Proof.
  apply (promo_only_on_agent_messages Sample.loaded_at Sample.waiting_page
           waiting_page_reachable Scenario.first_message).
  right. left. reflexivity.
Defined.

Lemma older_messages_do_not_reach_the_model_witness :
  Gemini.prompt "hi" Sample.to_brazil (Scenario.turn 0 :: Scenario.ten_turns)
  = Gemini.prompt "hi" Sample.to_brazil Scenario.ten_turns.
Proof.
  apply (older_messages_do_not_reach_the_model Sample.silent_service "hi"
           Sample.to_brazil [Scenario.turn 0] Scenario.ten_turns).
  cbn. lia.
Defined.

Lemma chat_route_answers_200_even_when_the_model_fails_witness :
  exists answer,
    ChatRoute.POST Scenario.typed_chat_runtime
      {| json := Return Scenario.typed_chat_body |}
    = (fst (Gemini.processUserMessage Sample.silent_service "hello"
              Sample.to_brazil [Scenario.first_message]),
       Return {| status := 200; body := AgentBody answer |})
    /\ snd (Gemini.processUserMessage Sample.silent_service "hello"
              Sample.to_brazil [Scenario.first_message])
       = Return answer
    /\ (invocation_fails Sample.silent_service "hello" Sample.to_brazil
          [Scenario.first_message] ->
        answer = {| AgentResponse.agentResponse := Gemini.apology;
                    AgentResponse.updatedState := Sample.to_brazil;
                    AgentResponse.promo := None |}).
Proof.
  apply (chat_route_answers_200_even_when_the_model_fails Scenario.typed_chat_runtime
           Scenario.typed_chat_body "hello" Sample.to_brazil
           Scenario.typed_chat_history [Scenario.first_message]);
    try reflexivity.
  constructor; [|constructor].
  eexists. split; [reflexivity|]. split; reflexivity.
Defined.

Lemma proxy_passes_backend_answer_through_witness :
  ProxyRoute.POST Scenario.answering_backend Sample.hello_request
  = ([Sample.hello_forwarded],
     Return {| status := 200; body := DataBody Scenario.reply |}).
Proof.
  destruct (proxy_passes_backend_answer_through Scenario.answering_backend
              Sample.hello_request Sample.hello_forwarded eq_refl) as [Hok _].
  apply (Hok {| ProxyRoute.response_status := 200;
                ProxyRoute.response_json := Return Scenario.reply |});
    reflexivity.
Defined.

Lemma backend_address_witness :
  ProxyRoute.url Sample.hello_forwarded = "http://127.0.0.1:8000" ++ "/api/chat".
Proof.
  destruct (backend_address Scenario.answering_backend Sample.hello_request
              Sample.hello_forwarded eq_refl) as [Hslash _].
  apply Hslash. reflexivity.
Defined.

Lemma history_is_optional_but_unchecked_witness :
  ProxyRoute.POST Scenario.answering_backend
    {| json := Return Scenario.body_with_null_turn |}
  = ([], Return {| status := 500;
                   body := ErrorBody (JString "Internal server error") |}).
Proof.
  destruct (history_is_optional_but_unchecked Scenario.answering_backend
              Scenario.body_with_null_turn "hello" eq_refl eq_refl)
    as (_ & _ & Hbad).
  apply Hbad. left. exists [JNull]. split; reflexivity.
Defined.

Lemma stringify_state_is_injective_witness :
  {| destinationCountry := Some "Brazil";
     amount := Some "500 BRL";
     beneficiaryName := None;
     deliveryMethod := None;
     isComplete := false |} = Sample.to_brazil.
Proof.
  apply stringify_state_is_injective. reflexivity.
Defined.

Lemma reset_does_not_cancel_witness :
  Page.isLoading (Page.step Sample.loaded_at (Page.Reset Sample.browser)
                    Sample.waiting_page) = true
  /\ Page.in_flight (Page.step Sample.loaded_at (Page.Reset Sample.browser)
                       Sample.waiting_page)
     = Page.in_flight Sample.waiting_page.
Proof.
  destruct (reset_does_not_cancel Sample.loaded_at Sample.waiting_page Sample.browser
              Page.FetchRejects 1700000002000 waiting_page_reachable eq_refl)
    as (Hload & Hflight & _).
  split; [exact Hload | exact Hflight].
Defined.

Lemma normalize_message_only_touches_timestamp_witness :
  exists ps',
    normalize_message
      (JObject [("role", JString "user"); ("timestamp", JString "2023-11-14")])
    = Return (JObject ps')
    /\ lookup "timestamp" ps' = Some (JDate (JString "2023-11-14"))
    /\ lookup "role" ps' = Some (JString "user").
Proof.
  destruct (normalize_message_only_touches_timestamp
              [("role", JString "user"); ("timestamp", JString "2023-11-14")]
              eq_refl)
    as [(ps' & Hrun & _ & _ & _ & _) _].
  exists ps'. split; [exact Hrun|].
  vm_compute in Hrun. injection Hrun as <-. split; reflexivity.
Defined.


(** C4, as stated, fails: a backend answer with status 304 is not passed
    on with its status; building the answer throws and the route answers
    500. *)
Lemma backend_304_is_answered_500 :
  ProxyRoute.ok {| ProxyRoute.response_status := 304;
                   ProxyRoute.response_json :=
                     Return (JObject [("detail", JString "Not Modified")]) |}
  = false
  /\ ~ (exists answer,
          snd (ProxyRoute.POST Scenario.not_modified_backend Sample.hello_request)
          = Return answer
          /\ status answer = 304).
Proof.
  split; [reflexivity|].
  intros (answer & Heq & Hstatus).
  vm_compute in Heq. injection Heq as <-. discriminate.
Qed.
